(** * Project structure explorer and memo exporter (ststst.py)

    A shallow embedding of the core of [ststst.py]: the key scheme
    ([make_safe_key], [make_unique_key]), the structure extractor
    ([extract_structure]), the project scanner
    ([collect_project_structure]), the report formatter
    ([format_memo_data]) and the loops of the page ([main]), followed by
    the properties proved about them.

    Conventions of the embedding.
    - A Python [str] is a list of Unicode code points ([pystr]); [py] turns
      a literal written in this file (UTF-8) into its code points.
    - A Python [dict] whose iteration order reaches the output is an
      association list in insertion order ([dict_set] keeps the position
      of a key that is already present, as Python does).
    - [pathlib] is modelled for POSIX paths: a path is its root and the
      list of its components.
    - An exception is an [Err] result: the [SyntaxError] of [ast.parse]
      ([ParseError]), the [ValueError] of [relative_to] ([PathError]), an
      error of [open] or [read] ([ReadError]), the [ValueError] of
      [ast.parse] on a NUL byte ([SourceError]) and the
      [UnicodeEncodeError] of [str.encode] ([EncodeError]). *)

From Stdlib Require Import List NArith Ascii String Bool Arith Lia Sorted.
From stdpp Require Import gmap.
Import ListNotations.

Local Open Scope list_scope.

(* ===================================================================== *)
(** * Strings *)
(* ===================================================================== *)

Definition pystr := list N.

(** Decoding of the UTF-8 bytes of a literal into code points. *)
Fixpoint utf8_decode (bs : list N) : pystr :=
  match bs with
  | [] => []
  | b :: r =>
      if (b <? 192)%N then b :: utf8_decode r
      else if (b <? 224)%N then
        match r with
        | b1 :: r1 => ((b - 192) * 64 + (b1 - 128))%N :: utf8_decode r1
        | _ => [b]
        end
      else if (b <? 240)%N then
        match r with
        | b1 :: b2 :: r2 =>
            ((b - 224) * 4096 + (b1 - 128) * 64 + (b2 - 128))%N
              :: utf8_decode r2
        | _ => [b]
        end
      else
        match r with
        | b1 :: b2 :: b3 :: r3 =>
            ((b - 240) * 262144 + (b1 - 128) * 4096
             + (b2 - 128) * 64 + (b3 - 128))%N :: utf8_decode r3
        | _ => [b]
        end
  end.

Definition py (s : string) : pystr :=
  utf8_decode (List.map N_of_ascii (list_ascii_of_string s)).
Arguments py s%_string.

Definition pystr_eqb (a b : pystr) : bool := bool_decide (a = b).
Arguments pystr_eqb : simpl never.

(** [sep.join(parts)] *)
Fixpoint join (sep : pystr) (parts : list pystr) : pystr :=
  match parts with
  | [] => []
  | [p] => p
  | p :: rest => p ++ sep ++ join sep rest
  end.

(** [s.startswith(prefix)] and the slice [s[len(prefix):]] *)
Fixpoint startswith (s prefix : pystr) {struct prefix} : bool :=
  match prefix, s with
  | [], _ => true
  | p :: prefix', c :: s' => (p =? c)%N && startswith s' prefix'
  | _ :: _, [] => false
  end.

Definition slice_from (n : nat) (s : pystr) : pystr := skipn n s.

Definition colon : N := 58.
Definition slash : N := 47.
Definition newline : pystr := [10%N].

(** [s.split("::")]: the separators are found from left to right and do
    not overlap; [acc] holds the current segment, reversed. *)
Fixpoint split_delim_aux (acc : pystr) (s : pystr) : list pystr :=
  match s with
  | [] => [rev acc]
  | c :: s' =>
      match s' with
      | c' :: s'' =>
          if (c =? colon)%N && (c' =? colon)%N
          then rev acc :: split_delim_aux [] s''
          else split_delim_aux (c :: acc) s'
      | [] => [rev (c :: acc)]
      end
  end.

Definition split_delim (s : pystr) : list pystr := split_delim_aux [] s.

(** [s.split(c)] for a separator of one character. *)
Fixpoint split_char_aux (sep : N) (acc : pystr) (s : pystr) : list pystr :=
  match s with
  | [] => [rev acc]
  | c :: s' =>
      if (c =? sep)%N then rev acc :: split_char_aux sep [] s'
      else split_char_aux sep (c :: acc) s'
  end.

Definition split_char (sep : N) (s : pystr) : list pystr :=
  split_char_aux sep [] s.

(** The characters [str.strip()] removes: those for which
    [str.isspace()] holds. *)
Definition isspace (c : N) : bool :=
  ((9 <=? c) && (c <=? 13) || (28 <=? c) && (c <=? 32)
   || (c =? 133) || (c =? 160) || (c =? 5760)
   || (8192 <=? c) && (c <=? 8202)
   || (c =? 8232) || (c =? 8233) || (c =? 8239) || (c =? 8287)
   || (c =? 12288))%N.

Fixpoint lstrip (s : pystr) : pystr :=
  match s with
  | c :: s' => if isspace c then lstrip s' else s
  | [] => []
  end.

(** [s.strip()] *)
Definition strip (s : pystr) : pystr := rev (lstrip (rev (lstrip s))).

(** Truth value of a string: non-empty. *)
Definition truthy (s : pystr) : bool :=
  match s with [] => false | _ => true end.

(** Order of [str] in Python: lexicographic on code points. *)
Fixpoint str_le (a b : pystr) : bool :=
  match a, b with
  | [], _ => true
  | _ :: _, [] => false
  | x :: a', y :: b' =>
      if (x <? y)%N then true
      else if (y <? x)%N then false
      else str_le a' b'
  end.

(* ===================================================================== *)
(** * Results and dictionaries *)
(* ===================================================================== *)

Inductive error : Type :=
| ParseError    (* SyntaxError raised by ast.parse *)
| PathError     (* ValueError raised by Path.relative_to *)
| ReadError     (* OSError or UnicodeDecodeError raised by open or read *)
| SourceError   (* ValueError raised by ast.parse on a NUL byte *)
| EncodeError.  (* UnicodeEncodeError raised by str.encode *)

Inductive result (A : Type) : Type :=
| Ok (a : A)
| Err (e : error).
Arguments Ok {A} a.
Arguments Err {A} e.

Definition bind {A B} (r : result A) (k : A -> result B) : result B :=
  match r with
  | Ok a => k a
  | Err e => Err e
  end.

Notation "'let!' x ':=' r 'in' k" := (bind r (fun x => k))
  (at level 10, x name, r at level 100, k at level 200).

Section Dict.
Context {V : Type}.

(** A dict with [str] keys, in insertion order. *)
Definition dict := list (pystr * V).

Fixpoint dict_get (d : dict) (k : pystr) : option V :=
  match d with
  | [] => None
  | (k', v) :: d' => if pystr_eqb k' k then Some v else dict_get d' k
  end.

(** [d[k] = v] *)
Fixpoint dict_set (d : dict) (k : pystr) (v : V) : dict :=
  match d with
  | [] => [(k, v)]
  | (k', v') :: d' =>
      if pystr_eqb k' k then (k', v) :: d'
      else (k', v') :: dict_set d' k v
  end.

(** [d[k]] on a [defaultdict] whose factory returns [dflt]: the value
    stored under [k], the default otherwise. *)
Definition dict_get_default (d : dict) (k : pystr) (dflt : V) : V :=
  match dict_get d k with
  | Some v => v
  | None => dflt
  end.

Definition dict_keys (d : dict) : list pystr := List.map fst d.

End Dict.
Arguments dict V : clear implicits.

(* ===================================================================== *)
(** * Paths (pathlib, POSIX flavour) *)
(* ===================================================================== *)

(** A path: its root ([""], ["/"] or ["//"]) and its components. *)
Record Path : Type := mkPath { root : pystr; tail : list pystr }.

Definition keep_component (x : pystr) : bool :=
  truthy x && negb (pystr_eqb x (py ".")).

(** [Path(s)]: the root is split off (exactly two leading slashes are
    kept as the root ["//"]), the rest is split on ['/'], and empty
    components and ['.'] are dropped. *)
Definition Path_of_str (s : pystr) : Path :=
  match s with
  | c0 :: s1 =>
      if (c0 =? slash)%N then
        match s1 with
        | c1 :: s2 =>
            if (c1 =? slash)%N then
              match s2 with
              | c2 :: _ =>
                  if (c2 =? slash)%N
                  then mkPath (py "/") (List.filter keep_component (split_char slash s1))
                  else mkPath (py "//") (List.filter keep_component (split_char slash s2))
              | [] => mkPath (py "//") []
              end
            else mkPath (py "/") (List.filter keep_component (split_char slash s1))
        | [] => mkPath (py "/") []
        end
      else mkPath [] (List.filter keep_component (split_char slash s))
  | [] => mkPath [] []
  end.

(** [str(p)] *)
Definition str_of_Path (p : Path) : pystr :=
  match root p, tail p with
  | [], [] => py "."
  | r, t => r ++ join (py "/") t
  end.

(** [p.parts] *)
Definition parts (p : Path) : list pystr :=
  (if truthy (root p) then [root p] else []) ++ tail p.

(** [p.is_absolute()] *)
Definition is_absolute (p : Path) : bool := truthy (root p).

(** [p / rel] for a relative [rel] given by its components. *)
Definition joinpath (p : Path) (rel : list pystr) : Path :=
  mkPath (root p) (tail p ++ rel).

(** [p.parent] *)
Definition parent (p : Path) : Path := mkPath (root p) (removelast (tail p)).

(** [p.name] *)
Definition name (p : Path) : pystr := List.last (tail p) [].

Fixpoint strip_prefix (pre l : list pystr) : option (list pystr) :=
  match pre, l with
  | [], _ => Some l
  | x :: pre', y :: l' => if pystr_eqb x y then strip_prefix pre' l' else None
  | _ :: _, [] => None
  end.

(** [p.relative_to(other)]: [ValueError] unless [other] has the root of
    [p] and its components begin those of [p]. *)
Definition relative_to (p other : Path) : result Path :=
  if pystr_eqb (root p) (root other) then
    match strip_prefix (tail other) (tail p) with
    | Some rest => Ok (mkPath [] rest)
    | None => Err PathError
    end
  else Err PathError.

(* ===================================================================== *)
(** * Key scheme *)
(* ===================================================================== *)

(** The surrogate code points, which a [str] can hold (a file name that
    is not valid UTF-8 gives them) and UTF-8 cannot encode. *)
Definition is_surrogate (c : N) : bool := ((55296 <=? c) && (c <=? 57343))%N.

(** [s.encode()] does not raise. *)
Definition encodable (s : pystr) : bool :=
  forallb (fun c => negb (is_surrogate c)) s.

Section UniqueKey.
(** [str(file_path.resolve())]: the absolute, canonical form of a path,
    which depends on the file system. *)
Variable resolve_str : Path -> pystr.

(** [make_unique_key(file_path, scope_type, scope_name, parent_name=None)].
    The parent is appended when it is given and not empty.  Line 31
    encodes the raw key for an MD5 digest that is never used: the
    digest is left out, the error of [encode] is not. *)
Definition make_unique_key (file_path : Path) (scope_type scope_name : pystr)
    (parent_name : option pystr) : result pystr :=
  let full_path := resolve_str file_path in
  let parts0 := [full_path; scope_type; scope_name] in
  let parts1 :=
    match parent_name with
    | Some p => if truthy p then parts0 ++ [p] else parts0
    | None => parts0
    end in
  let raw_key := join (py "::") parts1 in
  if encodable raw_key then Ok (py "memo_" ++ raw_key)
  else Err EncodeError.

End UniqueKey.

(** What [format_memo_data] reads out of a key (lines 80 to 89): [None]
    when the key is skipped, otherwise path, scope, name and parent. *)
Definition decode_key (key : pystr)
  : option (pystr * pystr * pystr * option pystr) :=
  if negb (startswith key (py "memo_")) then None
  else
    let raw := slice_from (List.length (py "memo_")) key in
    let parts := split_delim raw in
    match parts with
    | path :: scope :: name :: more =>
        let parent :=
          match more with
          | [p3] => Some p3     (* len(parts) == 4 *)
          | _ => None
          end in
        Some (path, scope, name, parent)
    | _ => None               (* len(parts) < 3 *)
    end.

(* ===================================================================== *)
(** * Report formatter *)
(* ===================================================================== *)

(** The value the [tree] of [format_memo_data] holds for a path.  The
    dict of a class holds the memo of the class under ["__memo__"] next
    to the memos of its methods, as in the source. *)
Record file_node : Type := mkNode {
  file_memo : pystr;                  (* "__file_memo__" *)
  functions : dict pystr;             (* "__functions__" *)
  classes : dict (dict pystr)         (* "__classes__", a defaultdict(dict) *)
}.

(** The factory of the [tree] defaultdict. *)
Definition new_node : file_node := mkNode [] [] [].

Definition memo_tree := dict file_node.

(** One turn of the first loop of [format_memo_data] (lines 76 to 98). *)
Definition store_memo (tree : memo_tree) (key memo : pystr) : memo_tree :=
  if negb (truthy (strip memo)) then tree
  else
    match decode_key key with
    | None => tree
    | Some (path, scope, name, parent) =>
        let node := dict_get_default tree path new_node in
        if pystr_eqb scope (py "file") then
          dict_set tree path
            (mkNode memo (functions node) (classes node))
        else if pystr_eqb scope (py "function") then
          dict_set tree path
            (mkNode (file_memo node) (dict_set (functions node) name memo)
               (classes node))
        else if pystr_eqb scope (py "class") then
          let cls := dict_get_default (classes node) name [] in
          dict_set tree path
            (mkNode (file_memo node) (functions node)
               (dict_set (classes node) name
                  (dict_set cls (py "__memo__") memo)))
        else if pystr_eqb scope (py "method") then
          match parent with
          | Some par =>
              if truthy par then
                let cls := dict_get_default (classes node) par [] in
                dict_set tree path
                  (mkNode (file_memo node) (functions node)
                     (dict_set (classes node) par (dict_set cls name memo)))
              else tree
          | None => tree
          end
        else tree
    end.

Definition build_tree (memo_data : dict pystr) : memo_tree :=
  fold_left (fun tree km => store_memo tree (fst km) (snd km)) memo_data [].

(** [sorted(tree.items())]: the keys of a dict are distinct, so the
    order is the one of the paths. *)
Fixpoint insert_sorted {V} (x : pystr * V) (l : list (pystr * V))
  : list (pystr * V) :=
  match l with
  | [] => [x]
  | y :: l' =>
      if str_le (fst x) (fst y) then x :: l
      else y :: insert_sorted x l'
  end.

Fixpoint sorted_items {V} (l : list (pystr * V)) : list (pystr * V) :=
  match l with
  | [] => []
  | x :: l' => insert_sorted x (sorted_items l')
  end.

(** The lines of one class (lines 109 to 112). *)
Definition class_lines (cls : pystr) (cls_content : dict pystr) : list pystr :=
  (py "  [CLASS] " ++ cls ++ py " : "
     ++ dict_get_default cls_content (py "__memo__") [])
  :: flat_map
       (fun mm : pystr * pystr =>
          if negb (pystr_eqb (fst mm) (py "__memo__"))
          then [py "    └── def " ++ fst mm ++ py "() : " ++ snd mm]
          else [])
       cls_content.

(** The lines of one file, once its relative path is known
    (lines 103 to 113). *)
Definition file_lines (rel_path : pystr) (content : file_node) : list pystr :=
  [py "📄 " ++ rel_path]
  ++ (if truthy (file_memo content)
      then [py "  📌 " ++ file_memo content] else [])
  ++ List.map
       (fun fm : pystr * pystr =>
          py "  [FUNC] " ++ fst fm ++ py "() : " ++ snd fm)
       (functions content)
  ++ flat_map (fun cc : pystr * dict pystr => class_lines (fst cc) (snd cc))
       (classes content)
  ++ [[]].

(** The second loop (lines 100 to 113): the first path that is not
    under the working directory ends it with the error. *)
Fixpoint render (cwd : Path) (items : list (pystr * file_node))
  : result (list pystr) :=
  match items with
  | [] => Ok []
  | (path, content) :: items' =>
      let! rel := relative_to (Path_of_str path) cwd in
      let! rest := render cwd items' in
      Ok (file_lines (str_of_Path rel) content ++ rest)
  end.

(** [format_memo_data(memo_data)], with [cwd] the value of [Path.cwd()]. *)
Definition format_memo_data (cwd : Path) (memo_data : dict pystr)
  : result pystr :=
  let tree := build_tree memo_data in
  let! lines := render cwd (sorted_items tree) in
  Ok (join newline lines).

Definition scenario_B : dict pystr :=
  [ (py "memo_/proj/pkg/a.py::method::m::Bar", py "does x");
    (py "memo_/proj/pkg/a.py::file::a.py", py "top memo") ].

(* ===================================================================== *)
(** * Structure extractor *)
(* ===================================================================== *)

(** The statements of a module as [ast] gives them, as far as the
    extractor tells them apart: the three kinds of definitions, each with
    its name and body, and every other statement with the statements
    nested in it. *)
#[local] Set Warnings "-register-all".
Inductive stmt : Type :=
| FunctionDef (n : pystr) (body : list stmt)
| AsyncFunctionDef (n : pystr) (body : list stmt)
| ClassDef (n : pystr) (body : list stmt)
| OtherStmt (nested : list stmt).

(** The returned dict: ["classes"] and ["functions"]. *)
Record structure : Type := mkStructure {
  st_classes : dict (list pystr);
  st_functions : list pystr
}.

(** Lines 46 and 47: [classes[node.name].append(sub.name)] on the
    [defaultdict(list)]. *)
Definition visit_member (cname : pystr) (classes : dict (list pystr))
    (sub : stmt) : dict (list pystr) :=
  match sub with
  | FunctionDef m _ =>
      dict_set classes cname (dict_get_default classes cname [] ++ [m])
  | _ => classes
  end.

(** Lines 44 to 49, for one child of the module. *)
Definition visit_node (acc : structure) (node : stmt) : structure :=
  match node with
  | ClassDef c body =>
      mkStructure (fold_left (visit_member c) body (st_classes acc))
        (st_functions acc)
  | FunctionDef f _ => mkStructure (st_classes acc) (st_functions acc ++ [f])
  | _ => acc
  end.

(** Lines 40 to 51, on the parsed module. *)
Definition extract_structure_ast (tree : list stmt) : structure :=
  fold_left visit_node tree (mkStructure [] []).

(** Scenario A: [def foo(): pass] and [class Bar] with the method [m]. *)
Definition scenario_A : list stmt :=
  [ FunctionDef (py "foo") [OtherStmt []];
    ClassDef (py "Bar") [FunctionDef (py "m") [OtherStmt []]] ].

(* ===================================================================== *)
(** * Project scanner *)
(* ===================================================================== *)

(** What [ast.parse] does with a text: the statements of the module, a
    [SyntaxError], or the [ValueError] of a text with a NUL byte. *)
Inductive parsed : Type :=
| Parsed (body : list stmt)
| SyntaxErr
| NulByte.

Section Scanner.
(** [ast.parse] *)
Variable ast_parse : pystr -> parsed.
(** The text [open(file_path).read()] returns; [None] when [open] or
    [read] raises (a directory, a dangling link, no permission, bytes
    that are not UTF-8). *)
Variable read_file : Path -> option pystr.
(** The files [rglob("*.py")] finds below a directory, each by its
    components below that directory. *)
Variable rglob_py : Path -> list (list pystr).

(** [extract_structure(file_path)] *)
Definition extract_structure (file_path : Path) : result structure :=
  match read_file file_path with
  | None => Err ReadError
  | Some text =>
      match ast_parse text with
      | Parsed tree => Ok (extract_structure_ast tree)
      | SyntaxErr => Err ParseError
      | NulByte => Err SourceError
      end
  end.

(** [any(part in exclude_folders for part in py_file.parts)] *)
Definition excluded (exclude_folders : list pystr) (py_file : Path) : bool :=
  existsb (fun part => existsb (pystr_eqb part) exclude_folders)
    (parts py_file).

Definition catalog := dict (dict (structure * Path)).

(** One turn of the loop of [collect_project_structure]
    (lines 58 to 62). *)
Definition scan_file (project_path : pystr) (exclude_folders : list pystr)
    (acc : result catalog) (py_file : Path) : result catalog :=
  let! st := acc in
  if excluded exclude_folders py_file then Ok st
  else
    let! relative_path := relative_to py_file (Path_of_str project_path) in
    let folder := str_of_Path (parent relative_path) in
    let! ex := extract_structure py_file in
    Ok (dict_set st folder
          (dict_set (dict_get_default st folder []) (name py_file)
             (ex, py_file))).

(** [collect_project_structure(project_path, exclude_folders)] *)
Definition collect_project_structure (project_path : pystr)
    (exclude_folders : list pystr) : result catalog :=
  let top := Path_of_str project_path in
  fold_left (scan_file project_path exclude_folders)
    (List.map (joinpath top) (rglob_py top)) (Ok []).

End Scanner.

(** The entries of a catalog: folder, file name, structure, path. *)
Definition catalog_entry (c : catalog) (folder fname : pystr)
    (ex : structure) (p : Path) : Prop :=
  exists files, In (folder, files) c /\ In (fname, (ex, p)) files.

(* ===================================================================== *)
(** * Keys of the widgets *)
(* ===================================================================== *)

(** [s.replace(old, new)] for single characters. *)
Definition replace_char (old new : N) (s : pystr) : pystr :=
  List.map (fun c => if (c =? old)%N then new else c) s.

(** The module-level [used_keys] and the number of calls of [uuid4]
    made so far. *)
Record key_state : Type := mkKeyState {
  used_keys : gset pystr;
  uuid_calls : nat
}.

(** Line 14: the base of the key, with ['/'] and [' '] replaced by
    ['_'] in each argument. *)
Definition safe_key_base (args : list pystr) : pystr :=
  py "memo_"
  ++ join (py "_")
       (List.map (fun a => replace_char 32 95 (replace_char slash 95 a)) args).

Section SafeKey.
(** [uuid4().hex[:8]] at the n-th call of [uuid4]. *)
Variable uuid4_hex8 : nat -> pystr.

(** The [while] loop of [make_safe_key] and the two lines after it;
    [None] when [fuel] tests of the loop condition did not end it. *)
Fixpoint safe_key_loop (fuel : nat) (base key : pystr) (st : key_state)
  : option (pystr * key_state) :=
  match fuel with
  | O => None
  | S fuel' =>
      if bool_decide (key ∈ used_keys st) then
        safe_key_loop fuel' base
          (base ++ py "_" ++ uuid4_hex8 (uuid_calls st))
          (mkKeyState (used_keys st) (S (uuid_calls st)))
      else
        Some (key, mkKeyState ({[key]} ∪ used_keys st) (uuid_calls st))
  end.

(** [make_safe_key], called with the strings [args]. *)
Definition make_safe_key (fuel : nat) (args : list pystr) (st : key_state)
  : option (pystr * key_state) :=
  let base := safe_key_base args in
  safe_key_loop fuel base base st.

(** A sequence of calls, each on the state the previous one left. *)
Fixpoint make_safe_keys (fuel : nat) (calls : list (list pystr))
    (st : key_state) : option (list pystr * key_state) :=
  match calls with
  | [] => Some ([], st)
  | args :: calls' =>
      match make_safe_key fuel args st with
      | Some (k, st1) =>
          match make_safe_keys fuel calls' st1 with
          | Some (ks, st2) => Some (k :: ks, st2)
          | None => None
          end
      | None => None
      end
  end.

End SafeKey.

(* ===================================================================== *)
(** * A small project, for the examples *)
(* ===================================================================== *)

(** A parser that rejects the text ["def ("] and gives the module of
    scenario A for any other text. *)
Definition demo_parse (text : pystr) : parsed :=
  if pystr_eqb text (py "def (") then SyntaxErr else Parsed scenario_A.

(** [bad.py] holds a text that does not parse, [dir.py] is a directory. *)
Definition demo_read (p : Path) : option pystr :=
  if pystr_eqb (name p) (py "bad.py") then Some (py "def (")
  else if pystr_eqb (name p) (py "dir.py") then None
  else Some (py "pass").

Definition demo_rglob (_ : Path) : list (list pystr) :=
  [ [py "a.py"]; [py "pkg"; py "b.py"]; [py "tests"; py "deep"; py "t.py"] ].

Definition demo_rglob_bad (_ : Path) : list (list pystr) :=
  [ [py "a.py"]; [py "pkg"; py "bad.py"]; [py "pkg"; py "b.py"] ].


(** The catalog of the small project scanned from ["."] without the
    folder [tests]. *)
Definition demo_catalog : catalog :=
  let ex := mkStructure [(py "Bar", [py "m"])] [py "foo"] in
  [ (py ".", [(py "a.py", (ex, mkPath [] [py "a.py"]))]);
    (py "pkg", [(py "b.py", (ex, mkPath [] [py "pkg"; py "b.py"]))]) ].

(** A source of suffixes that repeats each value once. *)
Definition demo_uuid (n : nat) : pystr := [N.of_nat (Nat.div2 n + 97)].

Definition demo_calls : list (list pystr) :=
  [ [py "/proj/a b.py"; py "file"; py "a b.py"];
    [py "/proj/a b.py"; py "file"; py "a b.py"];
    [py "/proj/a_b.py"; py "file"; py "a_b.py"];
    [py "/proj/a/b.py"; py "file"; py "a b.py"] ].

(* ===================================================================== *)
(** * Predicates of the statements *)
(* ===================================================================== *)

(** The string contains the delimiter ["::"]. *)
Fixpoint has_delim (s : pystr) : bool :=
  match s with
  | c :: s' =>
      match s' with
      | c' :: _ => ((c =? colon)%N && (c' =? colon)%N) || has_delim s'
      | [] => false
      end
  | [] => false
  end.

(** The string ends with a colon. *)
Fixpoint ends_with_colon (s : pystr) : bool :=
  match s with
  | [] => false
  | [c] => (c =? colon)%N
  | _ :: s' => ends_with_colon s'
  end.

(** The scopes the first loop of the formatter stores: the three plain
    ones, and ["method"] with a parent that is not empty. *)
Definition is_stored (scope : pystr) (par : option pystr) : bool :=
  pystr_eqb scope (py "file") || pystr_eqb scope (py "function")
  || pystr_eqb scope (py "class")
  || (pystr_eqb scope (py "method")
      && match par with Some p => truthy p | None => false end).

(** The four kinds of scope. *)
Definition is_scope (scope : pystr) : bool :=
  pystr_eqb scope (py "file") || pystr_eqb scope (py "function")
  || pystr_eqb scope (py "class") || pystr_eqb scope (py "method").

(** [p] is located under [cwd]. *)
Definition is_under (p cwd : Path) : Prop :=
  root p = root cwd /\ exists rest, tail p = tail cwd ++ rest.

(** Names of the plain [def]s among the statements of a body, in order. *)
Definition plain_defs (body : list stmt) : list pystr :=
  flat_map (fun s => match s with FunctionDef m _ => [m] | _ => [] end) body.

(** Names of the plain [def]s in the bodies of the top-level classes
    named [c], in order. *)
Definition methods_named (c : pystr) (tree : list stmt) : list pystr :=
  flat_map
    (fun node =>
       match node with
       | ClassDef c' body => if pystr_eqb c' c then plain_defs body else []
       | _ => []
       end) tree.

(** The list a class name maps to once the methods [l] are appended to
    what it had: a name without any method has no entry. *)
Definition merge_methods (o : option (list pystr)) (l : list pystr)
  : option (list pystr) :=
  match o, l with
  | None, [] => None
  | None, _ => Some l
  | Some l0, _ => Some (l0 ++ l)
  end.

(** Two class members that differ at most in the body of a [def]. *)
Inductive same_member : stmt -> stmt -> Prop :=
| same_member_def n b b' : same_member (FunctionDef n b) (FunctionDef n b')
| same_member_refl s : same_member s s.

(** Two children of a module that differ at most in the bodies of a
    [def] or of the [def]s of a class. *)
Inductive same_node : stmt -> stmt -> Prop :=
| same_node_def n b b' : same_node (FunctionDef n b) (FunctionDef n b')
| same_node_class c b b' :
    Forall2 same_member b b' -> same_node (ClassDef c b) (ClassDef c b')
| same_node_refl s : same_node s s.

Definition is_async (s : stmt) : bool :=
  match s with AsyncFunctionDef _ _ => true | _ => false end.

(** The module without its [async def]s, at top level and directly in
    the bodies of its top-level classes. *)
Definition without_async (tree : list stmt) : list stmt :=
  List.map
    (fun node =>
       match node with
       | ClassDef c body =>
           ClassDef c (List.filter (fun s => negb (is_async s)) body)
       | _ => node
       end)
    (List.filter (fun s => negb (is_async s)) tree).

(* ===================================================================== *)
(** * Further notions used by the statements *)
(* ===================================================================== *)

(** The components of a key can be told apart after the join: none
    contains ["::"], none that a delimiter follows ends with a colon,
    and the parent, when given, is not empty. *)
Definition key_parts_ok (path kind name : pystr) (par : option pystr)
  : Prop :=
  has_delim path = false /\ ends_with_colon path = false
  /\ has_delim kind = false /\ ends_with_colon kind = false
  /\ has_delim name = false
  /\ match par with
     | Some p =>
         truthy p = true /\ has_delim p = false
         /\ ends_with_colon name = false
     | None => True
     end.

(** The pairs the first loop of the formatter passes over. *)
Definition is_skipped (key text : pystr) : Prop :=
  forallb isspace text = true
  \/ startswith key (py "memo_") = false
  \/ List.length (split_delim (slice_from (List.length (py "memo_")) key)) < 3.

(** The lines of the report, before line 115 joins them. *)
Definition memo_lines (cwd : Path) (memo_data : dict pystr)
  : result (list pystr) :=
  render cwd (sorted_items (build_tree memo_data)).

(** The catalog has an entry under the folder and the file name. *)
Definition has_entry (c : catalog) (folder fname : pystr) : Prop :=
  exists files v,
    dict_get c folder = Some files /\ dict_get files fname = Some v.

(** Line 127 of [main]: the excluded names are the pieces of the input
    between commas, each stripped. *)
Definition comma : N := 44.

Definition parse_exclude_input (exclude_input : pystr) : list pystr :=
  List.map strip (split_char comma exclude_input).

(** What line 14 does to one argument. *)
Definition normalize_arg (a : pystr) : pystr :=
  replace_char 32 95 (replace_char slash 95 a).

(* ===================================================================== *)
(** * The page: [main] *)
(* ===================================================================== *)

(** How a piece of [main] ends: it returns a state, an exception leaves
    it, or a key loop in it does not end within the fuel. *)
Inductive run (S : Type) : Type :=
| Returns (s : S)
| Raises (e : error)
| Loops.
Arguments Returns {S} s.
Arguments Raises {S} e.
Arguments Loops {S}.

(** A loop over a list: the state after the last element, unless a turn
    raises or does not end. *)
Fixpoint fold_run {A S : Type} (f : S -> A -> run S) (l : list A) (s : S)
  : run S :=
  match l with
  | [] => Returns s
  | a :: l' =>
      match f s a with
      | Returns s1 => fold_run f l' s1
      | Raises e => Raises e
      | Loops => Loops
      end
  end.

(** How a run of [main] ends. *)
Inductive main_result : Type :=
| MissingProject                              (* line 131: early return *)
| Raised (e : error)                          (* an exception leaves main *)
| OutOfFuel                                   (* a key loop did not end *)
| Export (report : pystr) (st : key_state).   (* line 208: the text offered *)

Section Main.
Variable ast_parse : pystr -> parsed.
Variable read_file : Path -> option pystr.
Variable rglob_py : Path -> list (list pystr).
Variable resolve_str : Path -> pystr.
Variable uuid4_hex8 : nat -> pystr.
(** [Path(project_dir).exists()] *)
Variable path_exists : Path -> bool.
(** [Path.cwd()] *)
Variable cwd : Path.
(** The text held by the input widget of a given key. *)
Variable widget_text : pystr -> pystr.
Variable fuel : nat.

(** One declaration of the page: the key of its widget is made from
    [ui_args], then its canonical key is made ([unique_key] is what
    [make_unique_key] gives), and the text of the widget is stored in
    [memo_data] under it.  The state is the registry with [memo_data]. *)
Definition memo_widget (ui_args : list pystr) (unique_key : result pystr)
    (s : key_state * dict pystr) : run (key_state * dict pystr) :=
  match make_safe_key uuid4_hex8 fuel ui_args (fst s) with
  | Some (ui_key, st') =>
      match unique_key with
      | Ok key => Returns (st', dict_set (snd s) key (widget_text ui_key))
      | Err e => Raises e
      end
  | None => Loops
  end.

(** Lines 168 to 194, for one class of a file. *)
Definition class_widgets (py_file_path : Path)
    (s : key_state * dict pystr) (cm : pystr * list pystr)
  : run (key_state * dict pystr) :=
  match
    memo_widget [str_of_Path py_file_path; py "class"; fst cm]
      (make_unique_key resolve_str py_file_path (py "class") (fst cm) None) s
  with
  | Returns s1 =>
      fold_run
        (fun s2 method =>
           memo_widget
             [str_of_Path py_file_path; py "method"; fst cm; method]
             (make_unique_key resolve_str py_file_path (py "method") method
                (Some (fst cm))) s2)
        (snd cm) s1
  | Raises e => Raises e
  | Loops => Loops
  end.

(** Lines 144 to 194, for one file of a folder. *)
Definition file_widgets (s : key_state * dict pystr)
    (item : pystr * (structure * Path)) : run (key_state * dict pystr) :=
  let file := fst item in
  let content := fst (snd item) in
  let py_file_path := snd (snd item) in
  match
    memo_widget [str_of_Path py_file_path; py "file"; file]
      (make_unique_key resolve_str py_file_path (py "file") file None) s
  with
  | Returns s1 =>
      match
        fold_run
          (fun s2 fn =>
             memo_widget [str_of_Path py_file_path; py "function"; fn]
               (make_unique_key resolve_str py_file_path (py "function") fn
                  None) s2)
          (st_functions content) s1
      with
      | Returns s2 =>
          fold_run (class_widgets py_file_path) (st_classes content) s2
      | Raises e => Raises e
      | Loops => Loops
      end
  | Raises e => Raises e
  | Loops => Loops
  end.

(** Lines 139 to 194: the folders and the files of each in sorted order. *)
Definition collect_memos (scanned : catalog) (st : key_state)
  : run (key_state * dict pystr) :=
  fold_run
    (fun s (ff : pystr * dict (structure * Path)) =>
       fold_run file_widgets (sorted_items (snd ff)) s)
    (sorted_items scanned) (st, []).

(** [main()], from the two inputs of the page and the registry. *)
Definition main (project_dir exclude_input : pystr) (st : key_state)
  : main_result :=
  let exclude_folders := parse_exclude_input exclude_input in
  if negb (path_exists (Path_of_str project_dir)) then MissingProject
  else
    match
      collect_project_structure ast_parse read_file rglob_py project_dir
        exclude_folders
    with
    | Err e => Raised e
    | Ok scanned =>
        match collect_memos scanned st with
        | Loops => OutOfFuel
        | Raises e => Raised e
        | Returns (st', memo_data) =>
            match format_memo_data cwd memo_data with
            | Ok report => Export report st'
            | Err e => Raised e
            end
        end
    end.

End Main.

(** The declarations a file offers a memo for: the file itself, its
    functions, its classes and their methods, each with the kind, the
    name and the parent given to [make_unique_key]. *)
Definition declares (file : pystr) (content : structure)
    (kind name : pystr) (par : option pystr) : Prop :=
  (kind = py "file" /\ name = file /\ par = None)
  \/ (kind = py "function" /\ In name (st_functions content) /\ par = None)
  \/ (kind = py "class"
      /\ (exists ms, In (name, ms) (st_classes content)) /\ par = None)
  \/ (kind = py "method"
      /\ exists cls ms,
           In (cls, ms) (st_classes content) /\ In name ms /\ par = Some cls).

(** The number of widgets of a file and of a catalog. *)
Definition file_widget_count (content : structure) : nat :=
  1 + List.length (st_functions content)
  + list_sum (List.map (fun cm => 1 + List.length (snd cm)) (st_classes content)).

Definition widget_count (c : catalog) : nat :=
  list_sum
    (List.map
       (fun ff : pystr * dict (structure * Path) =>
          list_sum
            (List.map (fun item => file_widget_count (fst (snd item)))
               (snd ff)))
       c).

(** The small project seen from [/proj], and a page on which two memos
    were typed. *)
Definition demo_resolve (p : Path) : pystr := py "/proj/" ++ str_of_Path p.

Definition demo_widget (ui_key : pystr) : pystr :=
  if pystr_eqb ui_key (py "memo_pkg_b.py_method_Bar_m") then py "does m"
  else if pystr_eqb ui_key (py "memo_a.py_file_a.py") then py "top"
  else [].

(** The pairs of a [memo_data] all satisfy [Q]. *)
Definition memo_inv (Q : pystr -> pystr -> Prop)
    (s : key_state * dict pystr) : Prop :=
  forall k t, In (k, t) (snd s) -> Q k t.

(* ===================================================================== *)
(** * Strings and dictionaries: lemmas *)
(* ===================================================================== *)

Lemma pystr_eqb_eq (a b : pystr) : pystr_eqb a b = true <-> a = b.
Proof. unfold pystr_eqb. apply bool_decide_eq_true. Qed.

Lemma pystr_eqb_neq (a b : pystr) : pystr_eqb a b = false <-> a <> b.
Proof. unfold pystr_eqb. apply bool_decide_eq_false. Qed.

Lemma pystr_eqb_refl (a : pystr) : pystr_eqb a a = true.
Proof. now apply pystr_eqb_eq. Qed.

Lemma py_delim : py "::" = [colon; colon].
Proof. reflexivity. Qed.

Lemma py_memo : py "memo_" = [109; 101; 109; 111; 95]%N.
Proof. reflexivity. Qed.

Lemma split_delim_aux_step (acc : pystr) (c c' : N) (s : pystr) :
  split_delim_aux acc (c :: c' :: s)
  = if (c =? colon)%N && (c' =? colon)%N
    then rev acc :: split_delim_aux [] s
    else split_delim_aux (c :: acc) (c' :: s).
Proof. reflexivity. Qed.

Lemma has_delim_step (c c' : N) (s : pystr) :
  has_delim (c :: c' :: s)
  = ((c =? colon)%N && (c' =? colon)%N) || has_delim (c' :: s).
Proof. reflexivity. Qed.

Lemma ends_with_colon_step (c c' : N) (s : pystr) :
  ends_with_colon (c :: c' :: s) = ends_with_colon (c' :: s).
Proof. reflexivity. Qed.

(** A segment without delimiter that does not end with a colon is cut
    off at the delimiter that follows it. *)
Lemma split_delim_aux_app (s acc rest : pystr) :
  has_delim s = false -> ends_with_colon s = false ->
  split_delim_aux acc (s ++ colon :: colon :: rest)
  = (rev acc ++ s) :: split_delim_aux [] rest.
Proof.
  revert acc. induction s as [|c s IH]; intros acc Hd He.
  - cbn. now rewrite app_nil_r.
  - destruct s as [|c' s''].
    + cbn in He. cbn. rewrite He. cbn. reflexivity.
    + rewrite has_delim_step in Hd. apply orb_false_iff in Hd as [Hcc Hd].
      rewrite ends_with_colon_step in He.
      change ((c :: c' :: s'') ++ colon :: colon :: rest)
        with (c :: c' :: (s'' ++ colon :: colon :: rest)).
      rewrite split_delim_aux_step, Hcc.
      change (c' :: s'' ++ colon :: colon :: rest)
        with ((c' :: s'') ++ colon :: colon :: rest).
      rewrite (IH (c :: acc) Hd He). cbn [rev].
      now rewrite <- app_assoc.
Qed.

(** A string without delimiter is one segment. *)
Lemma split_delim_aux_last (s acc : pystr) :
  has_delim s = false -> split_delim_aux acc s = [rev acc ++ s].
Proof.
  revert acc. induction s as [|c s IH]; intros acc Hd.
  - cbn. now rewrite app_nil_r.
  - destruct s as [|c' s''].
    + reflexivity.
    + rewrite has_delim_step in Hd. apply orb_false_iff in Hd as [Hcc Hd].
      rewrite split_delim_aux_step, Hcc.
      rewrite (IH (c :: acc) Hd). cbn [rev]. now rewrite <- app_assoc.
Qed.

Lemma decode_key_prefixed (raw : pystr) :
  decode_key (py "memo_" ++ raw)
  = match split_delim raw with
    | path :: scope :: name :: more =>
        Some (path, scope, name,
              match more with [p3] => Some p3 | _ => None end)
    | _ => None
    end.
Proof.
  unfold decode_key. rewrite py_memo.
  assert (Hs : forall r, startswith ([109; 101; 109; 111; 95]%N ++ r)
                 [109; 101; 109; 111; 95]%N = true) by (intros r; reflexivity).
  rewrite Hs. reflexivity.
Qed.

Lemma lstrip_all_space (s : pystr) : forallb isspace s = true -> lstrip s = [].
Proof.
  induction s as [|c s IH]; [reflexivity|].
  cbn [forallb lstrip]. intros H. apply andb_true_iff in H as [Hc Hs].
  rewrite Hc. auto.
Qed.

Lemma strip_all_space (s : pystr) : forallb isspace s = true -> strip s = [].
Proof. intros H. unfold strip. now rewrite (lstrip_all_space s H). Qed.

Section DictLemmas.
Context {V : Type}.
Implicit Types (d : dict V) (k : pystr) (v : V).

Lemma dict_get_set d k v k' :
  dict_get (dict_set d k v) k'
  = if pystr_eqb k k' then Some v else dict_get d k'.
Proof.
  induction d as [|[k0 v0] d IH]; cbn.
  - reflexivity.
  - destruct (pystr_eqb k0 k) eqn:E0; cbn.
    + apply pystr_eqb_eq in E0. subst k0.
      now destruct (pystr_eqb k k').
    + rewrite IH. destruct (pystr_eqb k0 k') eqn:E1; [|reflexivity].
      apply pystr_eqb_eq in E1. subst k0. apply pystr_eqb_neq in E0.
      destruct (pystr_eqb k k') eqn:E2; [|reflexivity].
      apply pystr_eqb_eq in E2. congruence.
Qed.

Lemma dict_get_In d k v : dict_get d k = Some v -> In (k, v) d.
Proof.
  induction d as [|[k0 v0] d IH]; cbn; [discriminate|].
  destruct (pystr_eqb k0 k) eqn:E0.
  - apply pystr_eqb_eq in E0. intros [= ->]. subst. now left.
  - auto.
Qed.

Lemma dict_set_In d k v k' v' :
  In (k', v') (dict_set d k v) -> (k' = k /\ v' = v) \/ In (k', v') d.
Proof.
  induction d as [|[k0 v0] d IH]; cbn.
  - intros [[= <- <-]|[]]. now left.
  - destruct (pystr_eqb k0 k) eqn:E0; cbn.
    + apply pystr_eqb_eq in E0. subst k0.
      intros [[= <- <-]|H]; [now left | right; now right].
    + intros [H|H]; [right; now left|].
      destruct (IH H) as [?|?]; [now left | right; now right].
Qed.

Lemma dict_keys_set_new d k v : In k (dict_keys (dict_set d k v)).
Proof.
  induction d as [|[k0 v0] d IH]; cbn.
  - now left.
  - destruct (pystr_eqb k0 k) eqn:E0; cbn.
    + apply pystr_eqb_eq in E0. now left.
    + now right.
Qed.

Lemma dict_keys_set_old d k v k' :
  In k' (dict_keys d) -> In k' (dict_keys (dict_set d k v)).
Proof.
  induction d as [|[k0 v0] d IH]; cbn; [tauto|].
  destruct (pystr_eqb k0 k); cbn; tauto.
Qed.

End DictLemmas.

(* ===================================================================== *)
(** * Key scheme: round trip *)
(* ===================================================================== *)

Lemma encodable_app (a b : pystr) :
  encodable (a ++ b) = encodable a && encodable b.
Proof. unfold encodable. apply forallb_app. Qed.

Lemma encodable_join (segments : list pystr) :
  forallb encodable segments = true ->
  encodable (join (py "::") segments) = true.
Proof.
  induction segments as [|s rest IH]; [reflexivity|].
  cbn [forallb]. intros H. apply andb_true_iff in H as [Hs Hrest].
  destruct rest as [|s' rest]; [exact Hs|].
  change (join (py "::") (s :: s' :: rest))
    with (s ++ py "::" ++ join (py "::") (s' :: rest)).
  rewrite !encodable_app, Hs, (IH Hrest). reflexivity.
Qed.

(** C1, as amended: decoding the key of [make_unique_key] the way the
    formatter does gives back the resolved path, the kind, the name and
    the parent, when no component contains ["::"], no component that a
    delimiter follows (path, kind, and the name when a parent is given)
    ends with a colon, the parent, when given, is not empty, and no
    component holds a lone surrogate, so that line 31 does not raise
    and the key is returned. *)
Theorem make_unique_key_round_trip
    (resolve_str : Path -> pystr) (file_path : Path)
    (kind name : pystr) (par : option pystr) :
  has_delim (resolve_str file_path) = false ->
  ends_with_colon (resolve_str file_path) = false ->
  has_delim kind = false -> ends_with_colon kind = false ->
  has_delim name = false ->
  match par with
  | Some p =>
      truthy p = true /\ has_delim p = false /\ ends_with_colon name = false
  | None => True
  end ->
  encodable (resolve_str file_path) = true ->
  encodable kind = true -> encodable name = true ->
  match par with
  | Some p => encodable p = true
  | None => True
  end ->
  exists key,
    make_unique_key resolve_str file_path kind name par = Ok key
    /\ decode_key key = Some (resolve_str file_path, kind, name, par).
Proof.
  intros Hp Hpe Hk Hke Hn Hpar Ep Ek En Epar.
  unfold make_unique_key.
  destruct par as [p|].
  - destruct Hpar as (Ht & Hpd & Hne). rewrite Ht. cbn [app].
    rewrite encodable_join by (cbn [forallb]; now rewrite Ep, Ek, En, Epar).
    eexists. split; [reflexivity|].
    rewrite decode_key_prefixed. unfold split_delim. rewrite py_delim.
    cbn [app join].
    rewrite (split_delim_aux_app _ [] _ Hp Hpe).
    rewrite (split_delim_aux_app _ [] _ Hk Hke).
    rewrite (split_delim_aux_app _ [] _ Hn Hne).
    rewrite (split_delim_aux_last _ [] Hpd). reflexivity.
  - rewrite encodable_join by (cbn [forallb]; now rewrite Ep, Ek, En).
    eexists. split; [reflexivity|].
    rewrite decode_key_prefixed. unfold split_delim. rewrite py_delim.
    cbn [app join].
    rewrite (split_delim_aux_app _ [] _ Hp Hpe).
    rewrite (split_delim_aux_app _ [] _ Hk Hke).
    rewrite (split_delim_aux_last _ [] Hn). reflexivity.
Qed.

Lemma make_unique_key_round_trip_witness :
  exists key,
    make_unique_key str_of_Path (Path_of_str (py "/proj/pkg/a.py"))
      (py "method") (py "m") (Some (py "Bar")) = Ok key
    /\ decode_key key
       = Some (str_of_Path (Path_of_str (py "/proj/pkg/a.py")),
               py "method", py "m", Some (py "Bar")).
Proof.
  apply (make_unique_key_round_trip str_of_Path
           (Path_of_str (py "/proj/pkg/a.py")) (py "method") (py "m")
           (Some (py "Bar")));
    try reflexivity.
  repeat split; reflexivity.
Defined.

(** C1, as stated, fails: the components are free of ["::"] (and of
    surrogates, so the key is returned), but the name ends with a
    colon, which the split takes for the start of the delimiter. *)
Lemma make_unique_key_round_trip_counterexample :
  has_delim (str_of_Path (Path_of_str (py "/proj/a.py"))) = false
  /\ has_delim (py "method") = false
  /\ has_delim (py "m:") = false
  /\ has_delim (py "Bar") = false
  /\ make_unique_key str_of_Path (Path_of_str (py "/proj/a.py"))
       (py "method") (py "m:") (Some (py "Bar"))
     = Ok (py "memo_/proj/a.py::method::m:::Bar")
  /\ decode_key (py "memo_/proj/a.py::method::m:::Bar")
     = Some (py "/proj/a.py", py "method", py "m", Some (py ":Bar"))
  /\ decode_key (py "memo_/proj/a.py::method::m:::Bar")
     <> Some (py "/proj/a.py", py "method", py "m:", Some (py "Bar")).
Proof.
  repeat split; try reflexivity.
  vm_compute. discriminate.
Qed.

(* ===================================================================== *)
(** * Paths: lemmas *)
(* ===================================================================== *)

Lemma strip_prefix_Some (pre l rest : list pystr) :
  strip_prefix pre l = Some rest -> l = pre ++ rest.
Proof.
  revert l. induction pre as [|x pre IH]; intros l; cbn.
  - now intros [= ->].
  - destruct l as [|y l]; [discriminate|].
    destruct (pystr_eqb x y) eqn:E; [|discriminate].
    apply pystr_eqb_eq in E. subst y. intros H. now rewrite (IH l H).
Qed.

Lemma strip_prefix_app (pre rest : list pystr) :
  strip_prefix pre (pre ++ rest) = Some rest.
Proof.
  induction pre as [|x pre IH]; cbn; [reflexivity|].
  now rewrite pystr_eqb_refl.
Qed.

Lemma relative_to_error (p other : Path) (e : error) :
  relative_to p other = Err e -> e = PathError.
Proof.
  unfold relative_to. destruct (pystr_eqb _ _); [|congruence].
  destruct (strip_prefix _ _); congruence.
Qed.

(** [relative_to] succeeds exactly on the paths under [other]. *)
Lemma relative_to_under (p other : Path) :
  is_under p other <-> exists rel, relative_to p other = Ok rel.
Proof.
  unfold is_under, relative_to. split.
  - intros [Hr [rest Ht]]. rewrite Hr, pystr_eqb_refl, Ht, strip_prefix_app.
    eauto.
  - intros [rel H]. destruct (pystr_eqb _ _) eqn:E; [|discriminate].
    apply pystr_eqb_eq in E. split; [exact E|].
    destruct (strip_prefix _ _) as [rest|] eqn:Es; [|discriminate].
    exists rest. now apply strip_prefix_Some.
Qed.

Lemma relative_to_not_under (p other : Path) :
  ~ is_under p other -> relative_to p other = Err PathError.
Proof.
  intros Hn. destruct (relative_to p other) as [rel|e] eqn:E.
  - exfalso. apply Hn. apply relative_to_under. eauto.
  - now rewrite (relative_to_error _ _ _ E).
Qed.

Lemma relative_to_joinpath (top : Path) (rel : list pystr) :
  relative_to (joinpath top rel) top = Ok (mkPath [] rel).
Proof.
  unfold relative_to, joinpath. cbn [root tail].
  now rewrite pystr_eqb_refl, strip_prefix_app.
Qed.

(* ===================================================================== *)
(** * Report formatter: theorems *)
(* ===================================================================== *)

(** C2, as amended: on the map of scenario B, in either order of
    insertion and with the working directory [/proj], the report is the
    four lines and the separator of the scenario, where the line of the
    class ends with the space that precedes its (empty) memo. *)
Theorem format_memo_data_scenario_B :
  let report :=
    join newline
      [ py "📄 pkg/a.py";
        py "  📌 top memo";
        py "  [CLASS] Bar : ";
        py "    └── def m() : does x";
        py "" ] in
  format_memo_data (Path_of_str (py "/proj")) scenario_B = Ok report
  /\ format_memo_data (Path_of_str (py "/proj")) (rev scenario_B) = Ok report.
Proof. split; vm_compute; reflexivity. Qed.

(** C2, as stated, fails: the line of the class is not ["  [CLASS] Bar :"]. *)
Lemma format_memo_data_scenario_B_counterexample :
  format_memo_data (Path_of_str (py "/proj")) scenario_B
  <> Ok (join newline
           [ py "📄 pkg/a.py";
             py "  📌 top memo";
             py "  [CLASS] Bar :";
             py "    └── def m() : does x";
             py "" ]).
Proof. vm_compute. discriminate. Qed.

Lemma store_memo_skips (tree : memo_tree) (key text : pystr) :
  forallb isspace text = true
  \/ startswith key (py "memo_") = false
  \/ List.length (split_delim (slice_from (List.length (py "memo_")) key)) < 3 ->
  store_memo tree key text = tree.
Proof.
  intros H. unfold store_memo.
  destruct (truthy (strip text)) eqn:Et; [|reflexivity]. cbn [negb].
  destruct H as [H|[H|H]].
  - rewrite (strip_all_space _ H) in Et. discriminate.
  - unfold decode_key. now rewrite H.
  - unfold decode_key. destruct (startswith key (py "memo_")); [|reflexivity].
    cbn [negb].
    destruct (split_delim _) as [|p0 [|p1 [|p2 more]]]; try reflexivity.
    cbn in H. lia.
Qed.

(** C3: a pair whose text is empty or made of white space, or whose key
    lacks the prefix ["memo_"], or whose key has fewer than three
    segments, can be taken out of the map without any change to what
    [format_memo_data] returns, report or error. *)
Theorem format_memo_data_skips
    (cwd : Path) (before after : dict pystr) (key text : pystr) :
  forallb isspace text = true
  \/ startswith key (py "memo_") = false
  \/ List.length (split_delim (slice_from (List.length (py "memo_")) key)) < 3 ->
  format_memo_data cwd (before ++ (key, text) :: after)
  = format_memo_data cwd (before ++ after).
Proof.
  intros H. unfold format_memo_data, build_tree.
  rewrite !fold_left_app. cbn [fold_left fst snd].
  now rewrite (store_memo_skips _ _ _ H).
Qed.

Lemma format_memo_data_skips_witness :
  format_memo_data (Path_of_str (py "/proj"))
    ([(py "memo_/proj/a.py::file::a.py", py "top")]
       ++ (py "memo_/elsewhere/b.py::file", py "two segments")
       :: [(py "memo_/proj/a.py::function::f", py "does f")])
  = format_memo_data (Path_of_str (py "/proj"))
      ([(py "memo_/proj/a.py::file::a.py", py "top")]
         ++ [(py "memo_/proj/a.py::function::f", py "does f")]).
Proof.
  apply (format_memo_data_skips (Path_of_str (py "/proj"))
           [(py "memo_/proj/a.py::file::a.py", py "top")]
           [(py "memo_/proj/a.py::function::f", py "does f")]
           (py "memo_/elsewhere/b.py::file") (py "two segments")).
  right. right. vm_compute. lia.
Defined.

Lemma insert_sorted_In {V} (x y : pystr * V) (l : list (pystr * V)) :
  In x (insert_sorted y l) <-> x = y \/ In x l.
Proof.
  induction l as [|z l IH]; cbn.
  - intuition congruence.
  - destruct (str_le (fst y) (fst z)); cbn; [intuition congruence|].
    rewrite IH. intuition congruence.
Qed.

Lemma sorted_items_In {V} (x : pystr * V) (l : list (pystr * V)) :
  In x (sorted_items l) <-> In x l.
Proof.
  induction l as [|z l IH]; cbn; [tauto|].
  rewrite insert_sorted_In, IH. intuition congruence.
Qed.

(** The second loop fails as soon as one path of the tree is not under
    the working directory. *)
Lemma render_path_error (cwd : Path) (items : list (pystr * file_node))
    (path : pystr) (content : file_node) :
  In (path, content) items ->
  relative_to (Path_of_str path) cwd = Err PathError ->
  render cwd items = Err PathError.
Proof.
  intros Hin Hrel. induction items as [|[p0 c0] items IH]; [destruct Hin|].
  cbn [render]. destruct (relative_to (Path_of_str p0) cwd) as [r|e] eqn:E.
  - destruct Hin as [Heq|Hin].
    + injection Heq as -> ->. congruence.
    + cbn [bind]. now rewrite (IH Hin).
  - cbn [bind]. now rewrite (relative_to_error _ _ _ E).
Qed.

Lemma store_memo_keeps (tree : memo_tree) (key memo p : pystr) :
  In p (dict_keys tree) -> In p (dict_keys (store_memo tree key memo)).
Proof.
  intros H. unfold store_memo.
  repeat match goal with
         | |- context [if ?b then _ else _] => destruct b
         | |- context [match ?x with _ => _ end] => destruct x
         end;
    auto using dict_keys_set_old.
Qed.

Lemma store_memo_adds (tree : memo_tree) (key memo path scope name : pystr)
    (par : option pystr) :
  truthy (strip memo) = true ->
  decode_key key = Some (path, scope, name, par) ->
  is_stored scope par = true ->
  In path (dict_keys (store_memo tree key memo)).
Proof.
  intros Ht Hd Hs. unfold store_memo. rewrite Ht, Hd. cbn [negb].
  unfold is_stored in Hs.
  destruct (pystr_eqb scope (py "file")); [apply dict_keys_set_new|].
  destruct (pystr_eqb scope (py "function")); [apply dict_keys_set_new|].
  destruct (pystr_eqb scope (py "class")); [apply dict_keys_set_new|].
  destruct (pystr_eqb scope (py "method")); [|discriminate].
  destruct par as [p|]; [|discriminate]. cbn in Hs. rewrite Hs.
  apply dict_keys_set_new.
Qed.

Lemma build_tree_keeps (l : dict pystr) (tree : memo_tree) (p : pystr) :
  In p (dict_keys tree) ->
  In p (dict_keys
          (fold_left (fun t km => store_memo t (fst km) (snd km)) l tree)).
Proof.
  revert tree. induction l as [|[k m] l IH]; intros tree H; cbn; [exact H|].
  apply IH. now apply store_memo_keeps.
Qed.

Lemma build_tree_stored (memo_data : dict pystr)
    (key memo path scope name : pystr) (par : option pystr) :
  In (key, memo) memo_data ->
  truthy (strip memo) = true ->
  decode_key key = Some (path, scope, name, par) ->
  is_stored scope par = true ->
  In path (dict_keys (build_tree memo_data)).
Proof.
  intros Hin Ht Hd Hs. unfold build_tree. generalize (@nil (pystr * file_node)).
  induction memo_data as [|[k m] l IH]; intros tree; [destruct Hin|].
  cbn [fold_left fst snd]. destruct Hin as [Heq|Hin].
  - injection Heq as -> ->. apply build_tree_keeps.
    now apply (store_memo_adds tree key memo path scope name par).
  - now apply IH.
Qed.

(** C4, as amended: when an entry of the map that the first loop stores
    (text that is not white space, prefix, at least three segments, scope
    [file], [function] or [class], or scope [method] with a parent that
    is exactly the fourth segment and not empty) has a path that is not
    under the working directory, [format_memo_data] ends with the path
    error and returns no report. *)
Theorem format_memo_data_path_error
    (cwd : Path) (memo_data : dict pystr)
    (key memo path scope name : pystr) (par : option pystr) :
  In (key, memo) memo_data ->
  truthy (strip memo) = true ->
  decode_key key = Some (path, scope, name, par) ->
  is_stored scope par = true ->
  ~ is_under (Path_of_str path) cwd ->
  format_memo_data cwd memo_data = Err PathError.
Proof.
  intros Hin Ht Hd Hs Hu. unfold format_memo_data.
  pose proof (build_tree_stored _ _ _ _ _ _ _ Hin Ht Hd Hs) as Hk.
  unfold dict_keys in Hk. apply in_map_iff in Hk as [[p content] [Hp Hc]].
  cbn in Hp. subst p.
  rewrite (render_path_error cwd _ path content); [reflexivity| |].
  - now apply sorted_items_In.
  - now apply relative_to_not_under.
Qed.

Lemma not_under_example :
  ~ is_under (Path_of_str (py "/other/a.py")) (Path_of_str (py "/proj")).
Proof. intros [_ [rest H]]. vm_compute in H. discriminate. Qed.

Lemma format_memo_data_path_error_witness :
  format_memo_data (Path_of_str (py "/proj"))
    [ (py "memo_/proj/a.py::file::a.py", py "top");
      (py "memo_/other/a.py::method::m::Bar", py "does x") ]
  = Err PathError.
Proof.
  apply (format_memo_data_path_error (Path_of_str (py "/proj")) _
           (py "memo_/other/a.py::method::m::Bar") (py "does x")
           (py "/other/a.py") (py "method") (py "m") (Some (py "Bar"))).
  - right. left. reflexivity.
  - reflexivity.
  - reflexivity.
  - reflexivity.
  - exact not_under_example.
Defined.

(** C4, as stated, fails: an entry of scope [method] without a parent
    passes the filter and has a path outside the working directory, and
    the report is produced (empty) without any error. *)
Lemma format_memo_data_path_error_counterexample :
  let key := py "memo_/other/a.py::method::m" in
  let memo := py "x" in
  let cwd := Path_of_str (py "/proj") in
  truthy (strip memo) = true
  /\ startswith key (py "memo_") = true
  /\ decode_key key = Some (py "/other/a.py", py "method", py "m", None)
  /\ is_scope (py "method") = true
  /\ ~ is_under (Path_of_str (py "/other/a.py")) cwd
  /\ format_memo_data cwd [(key, memo)] = Ok []
  /\ format_memo_data cwd [(key, memo)] <> Err PathError.
Proof.
  cbv zeta. repeat split; try reflexivity.
  - exact not_under_example.
  - vm_compute. discriminate.
Qed.

(* ===================================================================== *)
(** * Structure extractor: theorems *)
(* ===================================================================== *)

Lemma merge_methods_nil (o : option (list pystr)) : merge_methods o [] = o.
Proof. destruct o as [l0|]; cbn; [now rewrite app_nil_r | reflexivity]. Qed.

Lemma merge_methods_app (o : option (list pystr)) (l1 l2 : list pystr) :
  merge_methods (merge_methods o l1) l2 = merge_methods o (l1 ++ l2).
Proof.
  destruct o as [l0|]; cbn.
  - destruct l1; cbn; now rewrite <- app_assoc.
  - destruct l1 as [|x l1]; cbn; [now destruct l2 | reflexivity].
Qed.

Lemma merge_methods_default (o : option (list pystr)) (m : pystr)
    (l : list pystr) :
  merge_methods (Some (match o with Some v => v | None => [] end ++ [m])) l
  = merge_methods o (m :: l).
Proof. destruct o as [l0|]; cbn; [now rewrite <- app_assoc | reflexivity]. Qed.

(** What the inner loop leaves under each class name. *)
Lemma visit_members_get (c : pystr) (body : list stmt)
    (d : dict (list pystr)) (c' : pystr) :
  dict_get (fold_left (visit_member c) body d) c'
  = if pystr_eqb c c' then merge_methods (dict_get d c') (plain_defs body)
    else dict_get d c'.
Proof.
  revert d. induction body as [|s body IH]; intros d.
  - cbn. rewrite merge_methods_nil. now destruct (pystr_eqb c c').
  - cbn [fold_left]. rewrite IH.
    destruct (pystr_eqb c c') eqn:E; destruct s; cbn [visit_member plain_defs flat_map app];
      try reflexivity.
    + rewrite dict_get_set, E. apply pystr_eqb_eq in E. subst c'.
      unfold dict_get_default. apply merge_methods_default.
    + now rewrite dict_get_set, E.
Qed.

(** What the outer loop leaves, from any accumulator. *)
Lemma visit_nodes_spec (tree : list stmt) (acc : structure) :
  st_functions (fold_left visit_node tree acc)
  = st_functions acc ++ plain_defs tree
  /\ forall c,
       dict_get (st_classes (fold_left visit_node tree acc)) c
       = merge_methods (dict_get (st_classes acc) c) (methods_named c tree).
Proof.
  revert acc. induction tree as [|node tree IH]; intros acc.
  - cbn. split; [now rewrite app_nil_r|].
    intros c. now rewrite merge_methods_nil.
  - cbn [fold_left]. destruct (IH (visit_node acc node)) as [IHf IHc].
    rewrite IHf. split.
    + destruct node; cbn; try reflexivity. now rewrite <- app_assoc.
    + intros c. rewrite IHc.
      destruct node as [f b|f b|c0 b|b]; cbn [visit_node st_classes methods_named flat_map app];
        try reflexivity.
      rewrite visit_members_get.
      destruct (pystr_eqb c0 c); [apply merge_methods_app | reflexivity].
Qed.

Lemma visit_members_same (c : pystr) (b b' : list stmt) :
  Forall2 same_member b b' ->
  forall d, fold_left (visit_member c) b d = fold_left (visit_member c) b' d.
Proof.
  induction 1 as [|s s' b b' Hs _ IH]; intros d; [reflexivity|].
  cbn [fold_left]. destruct Hs; cbn [visit_member]; apply IH.
Qed.

Lemma visit_nodes_same (tree tree' : list stmt) :
  Forall2 same_node tree tree' ->
  forall acc, fold_left visit_node tree acc = fold_left visit_node tree' acc.
Proof.
  induction 1 as [|s s' t t' Hs _ IH]; intros acc; [reflexivity|].
  cbn [fold_left]. destruct Hs as [n b b'|c b b' Hb|s]; cbn [visit_node].
  - apply IH.
  - rewrite (visit_members_same c b b' Hb). apply IH.
  - apply IH.
Qed.

(** C6, as amended: for a file that is read and parses,
    [extract_structure] returns the names of the top-level plain [def]s
    in source order and, under each class name, the names of the plain
    [def]s found directly in the bodies of the top-level classes of
    that name, in source order (the lists of classes that share a name
    are joined, and a name whose classes hold no plain [def] has no
    entry); the result does not depend on what the bodies of functions
    and methods contain; and on scenario A it is
    [{"classes": {"Bar": ["m"]}, "functions": ["foo"]}]. *)
Theorem extract_structure_direct_children
    (ast_parse : pystr -> parsed) (read_file : Path -> option pystr)
    (file_path : Path) (text : pystr) (tree : list stmt) :
  read_file file_path = Some text ->
  ast_parse text = Parsed tree ->
  exists r,
    extract_structure ast_parse read_file file_path = Ok r
    /\ st_functions r = plain_defs tree
    /\ (forall c,
          dict_get (st_classes r) c
          = match methods_named c tree with
            | [] => None
            | ms => Some ms
            end)
    /\ (forall tree',
          Forall2 same_node tree tree' -> extract_structure_ast tree' = r)
    /\ (tree = scenario_A ->
        r = mkStructure [(py "Bar", [py "m"])] [py "foo"]).
Proof.
  intros Hr Hp. exists (extract_structure_ast tree).
  unfold extract_structure. rewrite Hr, Hp. split; [reflexivity|].
  unfold extract_structure_ast.
  destruct (visit_nodes_spec tree (mkStructure [] [])) as [Hf Hc].
  repeat split.
  - exact Hf.
  - intros c. rewrite Hc. cbn. now destruct (methods_named c tree).
  - intros tree' Hs. symmetry. now apply visit_nodes_same.
  - intros ->. reflexivity.
Qed.

Lemma extract_structure_direct_children_witness :
  exists r,
    extract_structure demo_parse demo_read (Path_of_str (py "pkg/a.py")) = Ok r
    /\ st_functions r = plain_defs scenario_A
    /\ (forall c,
          dict_get (st_classes r) c
          = match methods_named c scenario_A with
            | [] => None
            | ms => Some ms
            end)
    /\ (forall tree',
          Forall2 same_node scenario_A tree' -> extract_structure_ast tree' = r)
    /\ (scenario_A = scenario_A ->
        r = mkStructure [(py "Bar", [py "m"])] [py "foo"]).
Proof.
  apply (extract_structure_direct_children demo_parse demo_read
           (Path_of_str (py "pkg/a.py")) (py "pass") scenario_A);
    reflexivity.
Defined.

(** C6, as stated, fails: two top-level classes of one name share one
    entry, which is the list of the methods of neither body, and a
    class without a plain [def] has no entry, not an empty list. *)
Lemma extract_structure_direct_children_counterexample :
  let body0 := [OtherStmt []] in
  let body1 := [FunctionDef (py "f") []] in
  let body2 := [FunctionDef (py "g") []] in
  let r := extract_structure_ast
             [ ClassDef (py "Empty") body0;
               ClassDef (py "A") body1; ClassDef (py "A") body2 ] in
  r = mkStructure [(py "A", [py "f"; py "g"])] []
  /\ dict_get (st_classes r) (py "Empty") <> Some (plain_defs body0)
  /\ dict_get (st_classes r) (py "A") <> Some (plain_defs body1)
  /\ dict_get (st_classes r) (py "A") <> Some (plain_defs body2).
Proof. cbv zeta. repeat split; vm_compute; discriminate. Qed.

Lemma visit_members_without_async (c : pystr) (body : list stmt) :
  forall d,
    fold_left (visit_member c)
      (List.filter (fun s => negb (is_async s)) body) d
    = fold_left (visit_member c) body d.
Proof.
  induction body as [|s body IH]; intros d; [reflexivity|].
  destruct s; cbn [List.filter is_async negb fold_left visit_member]; apply IH.
Qed.

Lemma visit_nodes_without_async (tree : list stmt) :
  forall acc,
    fold_left visit_node (without_async tree) acc
    = fold_left visit_node tree acc.
Proof.
  unfold without_async.
  induction tree as [|node tree IH]; intros acc; [reflexivity|].
  destruct node as [f b|f b|c b|b];
    cbn [List.filter is_async negb List.map fold_left visit_node];
    try apply IH.
  rewrite visit_members_without_async. apply IH.
Qed.

(** C10: an [async def] at module level or directly in the body of a
    class leaves no trace in the result: the module gives what it gives
    once these definitions are taken out; a module made of them alone
    gives the empty structure. *)
Theorem extract_structure_ignores_async (tree : list stmt) :
  extract_structure_ast (without_async tree) = extract_structure_ast tree
  /\ extract_structure_ast
       [ AsyncFunctionDef (py "f") [];
         ClassDef (py "C") [AsyncFunctionDef (py "m") []] ]
     = mkStructure [] [].
Proof.
  split; [apply visit_nodes_without_async | reflexivity].
Qed.

(* ===================================================================== *)
(** * Project scanner: theorems *)
(* ===================================================================== *)

Section ScannerFacts.
Variable ast_parse : pystr -> parsed.
Variable rglob_py : Path -> list (list pystr).
Variable project_path : pystr.
Variable exclude_folders : list pystr.

Let top : Path := Path_of_str project_path.

(** The folder a file is grouped under, from its components below the
    root. *)
Let folder_of (rel : list pystr) : pystr :=
  str_of_Path (parent (mkPath [] rel)).

Lemma excluded_iff (p : Path) :
  excluded exclude_folders p = true
  <-> exists part, In part (parts p) /\ In part exclude_folders.
Proof.
  unfold excluded. rewrite existsb_exists. split.
  - intros [part [Hp He]]. apply existsb_exists in He as [x [Hx Heq]].
    apply pystr_eqb_eq in Heq. subst x. eauto.
  - intros [part [Hp He]]. exists part. split; [exact Hp|].
    apply existsb_exists. exists part. split; [exact He|].
    apply pystr_eqb_refl.
Qed.

(** One turn of the loop on a file found below the root. *)
Lemma scan_file_found read_file (st : catalog) (rel : list pystr) :
  scan_file ast_parse read_file project_path exclude_folders (Ok st)
    (joinpath top rel)
  = if excluded exclude_folders (joinpath top rel) then Ok st
    else
      match extract_structure ast_parse read_file (joinpath top rel) with
      | Ok ex =>
          Ok (dict_set st (folder_of rel)
                (dict_set (dict_get_default st (folder_of rel) [])
                   (name (joinpath top rel)) (ex, joinpath top rel)))
      | Err e => Err e
      end.
Proof.
  unfold scan_file. cbn [bind].
  destruct (excluded _ _); [reflexivity|].
  fold top. rewrite relative_to_joinpath. cbn [bind].
  now destruct (extract_structure _ _ _).
Qed.





(** A property of all entries of a catalog is kept by the assignment of
    line 62 when the new entry has it. *)
Lemma catalog_set_entries
    (P : pystr -> pystr -> structure -> Path -> Prop)
    (st : catalog) (folder fname : pystr) (ex : structure) (p : Path) :
  (forall fo fn e q, catalog_entry st fo fn e q -> P fo fn e q) ->
  P folder fname ex p ->
  forall fo fn e q,
    catalog_entry
      (dict_set st folder
         (dict_set (dict_get_default st folder []) fname (ex, p)))
      fo fn e q ->
    P fo fn e q.
Proof.
  intros Hst Hnew fo fn e q [files [Hf He]].
  apply dict_set_In in Hf as [[-> ->]|Hf].
  - apply dict_set_In in He as [[-> Heq]|He].
    + injection Heq as -> ->. exact Hnew.
    + apply Hst. unfold dict_get_default in He.
      destruct (dict_get st folder) as [files0|] eqn:Eg; [|destruct He].
      exists files0. split; [now apply dict_get_In | exact He].
  - apply Hst. exists files. auto.
Qed.

(** Every entry of the catalog comes from a file found below the root
    that passed the exclusion test and was extracted. *)
Lemma scan_files_entries read_file
    (P : pystr -> pystr -> structure -> Path -> Prop)
    (rels : list (list pystr)) :
  (forall rel ex,
     In rel rels ->
     excluded exclude_folders (joinpath top rel) = false ->
     extract_structure ast_parse read_file (joinpath top rel) = Ok ex ->
     P (folder_of rel) (name (joinpath top rel)) ex (joinpath top rel)) ->
  forall acc c,
    (forall st, acc = Ok st ->
       forall fo fn e q, catalog_entry st fo fn e q -> P fo fn e q) ->
    fold_left (scan_file ast_parse read_file project_path exclude_folders)
      (List.map (joinpath top) rels) acc = Ok c ->
    forall fo fn e q, catalog_entry c fo fn e q -> P fo fn e q.
Proof.
  induction rels as [|r0 rels IH]; intros HP acc c Hacc Hfold.
  - cbn in Hfold. now apply Hacc.
  - cbn [List.map fold_left] in Hfold.
    refine (IH (fun rel ex Hin => HP rel ex (or_intror Hin)) _ c _ Hfold).
    intros st Hst. destruct acc as [st0|e0]; [|discriminate].
    rewrite scan_file_found in Hst.
    destruct (excluded _ _) eqn:Eex.
    + injection Hst as <-. now apply Hacc.
    + destruct (extract_structure _ _ _) as [ex|e1] eqn:Eext; [|discriminate].
      injection Hst as <-. apply catalog_set_entries.
      * now apply Hacc.
      * apply HP; auto. now left.
Qed.

Lemma collect_entries read_file (c : catalog)
    (folder fname : pystr) (ex : structure) (p : Path) :
  collect_project_structure ast_parse read_file rglob_py project_path
    exclude_folders = Ok c ->
  catalog_entry c folder fname ex p ->
  exists rel,
    In rel (rglob_py top)
    /\ p = joinpath top rel
    /\ excluded exclude_folders p = false
    /\ fname = name p
    /\ folder = folder_of rel
    /\ extract_structure ast_parse read_file p = Ok ex.
Proof.
  unfold collect_project_structure. fold top. intros Hc.
  revert folder fname ex p.
  apply (scan_files_entries read_file
           (fun fo fn e q =>
              exists rel,
                In rel (rglob_py top)
                /\ q = joinpath top rel
                /\ excluded exclude_folders q = false
                /\ fn = name q
                /\ fo = folder_of rel
                /\ extract_structure ast_parse read_file q = Ok e)
           (rglob_py top)) with (acc := Ok []) (c := c).
  - intros rel ex Hin Hex Hext. exists rel. auto 10.
  - intros st [= <-] fo fn e q [files [[] _]].
  - exact Hc.
Qed.






(** C8, as amended: every entry of the catalog maps the folder of a file
    found below the root (relative to the root) and the name of the file
    to the structure extracted from it and to its path as enumerated,
    which is the root as given joined with the components of the file,
    and so is absolute exactly when the root was given as an absolute
    path. *)
Theorem collect_project_structure_entries
    (read_file : Path -> option pystr) (c : catalog)
    (folder fname : pystr) (ex : structure) (p : Path) :
  collect_project_structure ast_parse read_file rglob_py project_path
    exclude_folders = Ok c ->
  catalog_entry c folder fname ex p ->
  exists rel,
    In rel (rglob_py top)
    /\ p = joinpath top rel
    /\ fname = name p
    /\ folder = str_of_Path (parent (mkPath [] rel))
    /\ extract_structure ast_parse read_file p = Ok ex
    /\ is_absolute p = is_absolute (Path_of_str project_path).
Proof.
  intros Hc Hentry.
  destruct (collect_entries read_file c folder fname ex p Hc Hentry)
    as (rel & Hin & Hp & _ & Hn & Hf & Hx).
  exists rel. repeat split; auto. now subst p.
Qed.

End ScannerFacts.




Lemma demo_catalog_scanned :
  collect_project_structure demo_parse demo_read demo_rglob (py ".")
    [py "tests"] = Ok demo_catalog.
Proof. vm_compute. reflexivity. Qed.

Lemma demo_catalog_entry :
  catalog_entry demo_catalog (py "pkg") (py "b.py")
    (mkStructure [(py "Bar", [py "m"])] [py "foo"])
    (mkPath [] [py "pkg"; py "b.py"]).
Proof.
  exists [(py "b.py",
           (mkStructure [(py "Bar", [py "m"])] [py "foo"],
            mkPath [] [py "pkg"; py "b.py"]))].
  split; [right; left; reflexivity | left; reflexivity].
Qed.

Lemma collect_project_structure_entries_witness :
  exists rel,
    In rel (demo_rglob (Path_of_str (py ".")))
    /\ mkPath [] [py "pkg"; py "b.py"] = joinpath (Path_of_str (py ".")) rel
    /\ py "b.py" = name (mkPath [] [py "pkg"; py "b.py"])
    /\ py "pkg" = str_of_Path (parent (mkPath [] rel))
    /\ extract_structure demo_parse demo_read (mkPath [] [py "pkg"; py "b.py"])
       = Ok (mkStructure [(py "Bar", [py "m"])] [py "foo"])
    /\ is_absolute (mkPath [] [py "pkg"; py "b.py"])
       = is_absolute (Path_of_str (py ".")).
Proof.
  apply (collect_project_structure_entries demo_parse demo_rglob (py ".")
           [py "tests"] demo_read demo_catalog (py "pkg") (py "b.py")
           (mkStructure [(py "Bar", [py "m"])] [py "foo"])
           (mkPath [] [py "pkg"; py "b.py"])).
  - exact demo_catalog_scanned.
  - exact demo_catalog_entry.
Defined.

(** C8, as stated, fails: scanned from the root ["."], the entry of
    [pkg/b.py] holds the relative path [pkg/b.py]. *)
Lemma collect_project_structure_entries_counterexample :
  collect_project_structure demo_parse demo_read demo_rglob (py ".")
    [py "tests"] = Ok demo_catalog
  /\ catalog_entry demo_catalog (py "pkg") (py "b.py")
       (mkStructure [(py "Bar", [py "m"])] [py "foo"])
       (mkPath [] [py "pkg"; py "b.py"])
  /\ str_of_Path (mkPath [] [py "pkg"; py "b.py"]) = py "pkg/b.py"
  /\ is_absolute (mkPath [] [py "pkg"; py "b.py"]) = false.
Proof.
  split; [exact demo_catalog_scanned|].
  split; [exact demo_catalog_entry|].
  split; reflexivity.
Qed.

(* ===================================================================== *)
(** * Keys of the widgets: theorems *)
(* ===================================================================== *)

#[local] Set Warnings "-clear-no-such-hyp".

Section SafeKeyFacts.
Variable uuid4_hex8 : nat -> pystr.

(** The key the loop ends with is new, and is all the loop adds. *)
Lemma safe_key_loop_fresh (fuel : nat) (base : pystr) :
  forall (key : pystr) (st : key_state) (k : pystr) (st' : key_state),
    safe_key_loop uuid4_hex8 fuel base key st = Some (k, st') ->
    (k ∉ used_keys st) /\ used_keys st' = {[k]} ∪ used_keys st.
Proof.
  induction fuel as [|fuel IH]; intros key st k st' H; [discriminate|].
  cbn [safe_key_loop] in H. case_bool_decide as Hin.
  - apply IH in H. exact H.
  - injection H as <- <-. split; [exact Hin | reflexivity].
Qed.

(** The loop ends when one of the suffixes drawn gives a new key,
    given fuel for the draws before it. *)
Lemma safe_key_loop_returns (base : pystr) (n : nat) :
  forall (fuel : nat) (key : pystr) (st : key_state),
    n + 2 <= fuel ->
    base ++ py "_" ++ uuid4_hex8 (uuid_calls st + n) ∉ used_keys st ->
    exists k st', safe_key_loop uuid4_hex8 fuel base key st = Some (k, st').
Proof.
  induction n as [|n IH]; intros fuel key st Hfuel Hfresh.
  - destruct fuel as [|[|fuel]]; [lia | lia |].
    cbn [safe_key_loop]. case_bool_decide; [|eauto].
    cbn [used_keys uuid_calls]. rewrite Nat.add_0_r in Hfresh.
    case_bool_decide; [contradiction | eauto].
  - destruct fuel as [|fuel]; [lia|].
    cbn [safe_key_loop]. case_bool_decide; [|eauto].
    apply IH; [lia|]. cbn [used_keys uuid_calls].
    now replace (S (uuid_calls st) + n) with (uuid_calls st + S n) by lia.
Qed.

Lemma make_safe_key_returns (fuel : nat) (args : list pystr)
    (st : key_state) (n : nat) :
  n + 2 <= fuel ->
  safe_key_base args ++ py "_" ++ uuid4_hex8 (uuid_calls st + n)
    ∉ used_keys st ->
  exists k st', make_safe_key uuid4_hex8 fuel args st = Some (k, st').
Proof. intros. unfold make_safe_key. now apply (safe_key_loop_returns _ n). Qed.

Lemma make_safe_keys_fresh (fuel : nat) (calls : list (list pystr)) :
  forall (st : key_state) (keys : list pystr) (st' : key_state),
    make_safe_keys uuid4_hex8 fuel calls st = Some (keys, st') ->
    NoDup keys
    /\ (forall k, k ∈ keys -> k ∉ used_keys st)
    /\ used_keys st' = list_to_set keys ∪ used_keys st.
Proof.
  induction calls as [|args calls IH]; intros st keys st' H.
  - injection H as <- <-. split; [constructor|]. split; set_solver.
  - cbn [make_safe_keys] in H.
    destruct (make_safe_key uuid4_hex8 fuel args st) as [[k st1]|] eqn:E1;
      [|discriminate].
    destruct (make_safe_keys uuid4_hex8 fuel calls st1) as [[ks st2]|] eqn:E2;
      [|discriminate].
    injection H as <- <-.
    apply safe_key_loop_fresh in E1 as [Hk Hst1].
    apply IH in E2 as (Hnd & Hks & Hst2).
    rewrite Hst1 in Hks. split; [|split].
    + constructor; [|exact Hnd]. intros Hin. apply (Hks k Hin). set_solver.
    + intros k' Hin. apply elem_of_cons in Hin as [->|Hin]; [exact Hk|].
      specialize (Hks k' Hin). set_solver.
    + rewrite Hst2, Hst1. set_solver.
Qed.

(** C9: a call of [make_safe_key] that returns gives a key that was not
    in the registry and leaves the registry with that key added and
    nothing removed; so the keys returned by any sequence of calls on
    one registry are pairwise distinct, none was in the registry at the
    start, and all are in it at the end. *)
Theorem make_safe_key_unique (fuel : nat) :
  (forall (args : list pystr) (st : key_state) (k : pystr) (st' : key_state),
     make_safe_key uuid4_hex8 fuel args st = Some (k, st') ->
     (k ∉ used_keys st)
     /\ (k ∈ used_keys st')
     /\ used_keys st' = {[k]} ∪ used_keys st
     /\ (used_keys st ⊆ used_keys st'))
  /\ (forall (calls : list (list pystr)) (st : key_state)
        (keys : list pystr) (st' : key_state),
        make_safe_keys uuid4_hex8 fuel calls st = Some (keys, st') ->
        NoDup keys
        /\ (forall k, k ∈ keys -> (k ∉ used_keys st) /\ (k ∈ used_keys st'))
        /\ (used_keys st ⊆ used_keys st')).
Proof.
  split.
  - intros args st k st' H. apply safe_key_loop_fresh in H as [Hk Hst].
    rewrite Hst. repeat split; [exact Hk | set_solver | set_solver].
  - intros calls st keys st' H.
    apply make_safe_keys_fresh in H as (Hnd & Hks & Hst).
    rewrite Hst. split; [exact Hnd|]. split; [|set_solver].
    intros k Hin. split; [now apply Hks | set_solver].
Qed.

End SafeKeyFacts.

Lemma make_safe_key_unique_witness :
  exists keys st',
    make_safe_keys demo_uuid 4 demo_calls (mkKeyState ∅ 0) = Some (keys, st')
    /\ length keys = 4
    /\ NoDup keys
    /\ (forall k, k ∈ keys -> (k ∉ (∅ : gset pystr)) /\ (k ∈ used_keys st'))
    /\ ((∅ : gset pystr) ⊆ used_keys st').
Proof.
  destruct (make_safe_keys demo_uuid 4 demo_calls (mkKeyState ∅ 0))
    as [[keys st']|] eqn:E.
  - exists keys, st'. split; [reflexivity|]. split.
    + vm_compute in E. injection E as <- _. reflexivity.
    + exact (proj2 (make_safe_key_unique demo_uuid 4) demo_calls
               (mkKeyState ∅ 0) keys st' E).
  - vm_compute in E. discriminate E.
Defined.

(* ===================================================================== *)
(** * Key scheme: further properties *)
(* ===================================================================== *)

Lemma split_delim_join_segments (segments : list pystr) :
  segments <> [] ->
  (forall s, In s segments -> has_delim s = false) ->
  (forall s, In s (removelast segments) -> ends_with_colon s = false) ->
  split_delim (join (py "::") segments) = segments.
Proof.
  unfold split_delim. rewrite py_delim.
  induction segments as [|s rest IH]; intros Hne Hd He; [contradiction|].
  destruct rest as [|s' rest].
  - cbn [join]. rewrite split_delim_aux_last; [reflexivity|].
    apply Hd. now left.
  - change (join [colon; colon] (s :: s' :: rest))
      with (s ++ colon :: colon :: join [colon; colon] (s' :: rest)).
    rewrite split_delim_aux_app.
    + cbn [rev app]. f_equal. apply IH; [discriminate| |].
      * intros x Hx. apply Hd. now right.
      * intros x Hx. apply He. now right.
    + apply Hd. now left.
    + apply He. now left.
Qed.

(** X1: splitting on ["::"] undoes the join of any number of segments,
    when no segment contains ["::"] and no segment but the last ends
    with a colon. *)
Theorem split_delim_join (segments : list pystr) :
  segments <> [] ->
  (forall s, In s segments -> has_delim s = false) ->
  (forall s, In s (removelast segments) -> ends_with_colon s = false) ->
  split_delim (join (py "::") segments) = segments.
Proof. exact (split_delim_join_segments segments). Qed.

Lemma split_delim_join_witness :
  split_delim
    (join (py "::") [py "/proj/a.py"; py ":x"; py ""; py "m"; py "Bar:"])
  = [py "/proj/a.py"; py ":x"; py ""; py "m"; py "Bar:"].
Proof.
  apply (split_delim_join
           [py "/proj/a.py"; py ":x"; py ""; py "m"; py "Bar:"]).
  - discriminate.
  - intros s Hs. cbn in Hs.
    destruct Hs as [<-|[<-|[<-|[<-|[<-|[]]]]]]; reflexivity.
  - intros s Hs. cbn in Hs.
    destruct Hs as [<-|[<-|[<-|[<-|[]]]]]; reflexivity.
Defined.

Lemma make_unique_key_Ok (resolve_str : Path -> pystr)
    (file_path : Path) (kind name key : pystr) (par : option pystr) :
  make_unique_key resolve_str file_path kind name par = Ok key ->
  key
  = py "memo_"
    ++ join (py "::")
         (match par with
          | Some p =>
              if truthy p then [resolve_str file_path; kind; name] ++ [p]
              else [resolve_str file_path; kind; name]
          | None => [resolve_str file_path; kind; name]
          end).
Proof.
  unfold make_unique_key. destruct (encodable _); [|discriminate].
  now intros [= <-].
Qed.

(** The key of [make_unique_key] read back by the formatter. *)
Lemma decode_make_unique_key (resolve_str : Path -> pystr)
    (file_path : Path) (kind name key : pystr) (par : option pystr) :
  key_parts_ok (resolve_str file_path) kind name par ->
  make_unique_key resolve_str file_path kind name par = Ok key ->
  decode_key key = Some (resolve_str file_path, kind, name, par).
Proof.
  intros (Hp & Hpe & Hk & Hke & Hn & Hpar) Hkey.
  apply make_unique_key_Ok in Hkey. subst key.
  rewrite decode_key_prefixed.
  destruct par as [p|].
  - destruct Hpar as (Ht & Hpd & Hne). rewrite Ht. cbn [app].
    rewrite split_delim_join_segments; [reflexivity|discriminate| |].
    + intros s [<-|[<-|[<-|[<-|[]]]]]; assumption.
    + intros s [<-|[<-|[<-|[]]]]; assumption.
  - rewrite split_delim_join_segments; [reflexivity|discriminate| |].
    + intros s [<-|[<-|[<-|[]]]]; assumption.
    + intros s [<-|[<-|[]]]; assumption.
Qed.

(** X2: two declarations whose components can be told apart get the
    same canonical key only when they have the same resolved path, the
    same kind, the same name and the same parent. *)
Theorem make_unique_key_injective (resolve_str : Path -> pystr)
    (file1 file2 : Path) (kind1 kind2 name1 name2 key : pystr)
    (par1 par2 : option pystr) :
  key_parts_ok (resolve_str file1) kind1 name1 par1 ->
  key_parts_ok (resolve_str file2) kind2 name2 par2 ->
  make_unique_key resolve_str file1 kind1 name1 par1 = Ok key ->
  make_unique_key resolve_str file2 kind2 name2 par2 = Ok key ->
  resolve_str file1 = resolve_str file2
  /\ kind1 = kind2 /\ name1 = name2 /\ par1 = par2.
Proof.
  intros H1 H2 K1 K2.
  pose proof (decode_make_unique_key resolve_str _ _ _ _ _ H1 K1) as D1.
  pose proof (decode_make_unique_key resolve_str _ _ _ _ _ H2 K2) as D2.
  rewrite D2 in D1. injection D1 as -> -> -> ->. auto.
Qed.

Lemma make_unique_key_injective_witness :
  str_of_Path (Path_of_str (py "/proj/a.py"))
  = str_of_Path (Path_of_str (py "/proj//a.py"))
  /\ py "function" = py "function" /\ py "foo" = py "foo"
  /\ @None pystr = None.
Proof.
  apply (make_unique_key_injective str_of_Path
           (Path_of_str (py "/proj/a.py")) (Path_of_str (py "/proj//a.py"))
           (py "function") (py "function") (py "foo") (py "foo")
           (py "memo_/proj/a.py::function::foo") None None).
  - repeat split; reflexivity.
  - repeat split; reflexivity.
  - reflexivity.
  - reflexivity.
Defined.

(* ===================================================================== *)
(** * Report formatter: further properties *)
(* ===================================================================== *)

Section DictMore.
Context {V : Type}.
Implicit Types (d : dict V) (k : pystr) (v : V).

Lemma dict_keys_set_inv d k v k' :
  In k' (dict_keys (dict_set d k v)) -> k' = k \/ In k' (dict_keys d).
Proof.
  induction d as [|[k0 v0] d IH]; cbn.
  - intros [<-|[]]. now left.
  - destruct (pystr_eqb k0 k) eqn:E0; cbn.
    + intros [<-|H]; right; [now left | now right].
    + intros [<-|H]; [right; now left|].
      destruct (IH H) as [?|?]; [now left | right; now right].
Qed.

(** An assignment keeps the keys and their order when the key is
    there, and puts the key last when it is new. *)
Lemma dict_keys_set d k v :
  dict_keys (dict_set d k v)
  = if existsb (pystr_eqb k) (dict_keys d) then dict_keys d
    else dict_keys d ++ [k].
Proof.
  unfold dict_keys.
  induction d as [|[k0 v0] d IH]; cbn; [reflexivity|].
  destruct (pystr_eqb k0 k) eqn:E0; cbn.
  - apply pystr_eqb_eq in E0. subst k0. now rewrite pystr_eqb_refl.
  - assert (pystr_eqb k k0 = false) as ->.
    { apply pystr_eqb_neq. apply pystr_eqb_neq in E0. congruence. }
    cbn. rewrite IH. now destruct (existsb _ _).
Qed.

Lemma dict_set_new d k v :
  ~ In k (dict_keys d) -> dict_set d k v = d ++ [(k, v)].
Proof.
  induction d as [|[k0 v0] d IH]; cbn; [reflexivity|]. intros Hn.
  destruct (pystr_eqb k0 k) eqn:E0.
  - apply pystr_eqb_eq in E0. tauto.
  - rewrite IH; tauto.
Qed.

Lemma dict_get_None d k : ~ In k (dict_keys d) -> dict_get d k = None.
Proof.
  induction d as [|[k0 v0] d IH]; cbn; [reflexivity|]. intros Hn.
  destruct (pystr_eqb k0 k) eqn:E0.
  - apply pystr_eqb_eq in E0. tauto.
  - apply IH. tauto.
Qed.

Lemma existsb_eqb_In (k : pystr) (l : list pystr) :
  existsb (pystr_eqb k) l = true <-> In k l.
Proof.
  rewrite existsb_exists. split.
  - intros [x [Hx He]]. apply pystr_eqb_eq in He. now subst x.
  - intros H. exists k. split; [exact H | apply pystr_eqb_refl].
Qed.

Lemma NoDup_snoc (l : list pystr) (k : pystr) :
  List.NoDup l -> ~ In k l -> List.NoDup (l ++ [k]).
Proof.
  induction 1 as [|x l Hx Hnd IH]; intros Hk; cbn.
  - constructor; [intros []|constructor].
  - constructor.
    + rewrite in_app_iff. cbn. intros [H|[H|[]]]; [tauto|].
      subst x. apply Hk. now left.
    + apply IH. intros H. apply Hk. now right.
Qed.

Lemma dict_keys_NoDup_set d k v :
  List.NoDup (dict_keys d) -> List.NoDup (dict_keys (dict_set d k v)).
Proof.
  intros Hnd. rewrite dict_keys_set.
  destruct (existsb (pystr_eqb k) (dict_keys d)) eqn:E; [exact Hnd|].
  apply NoDup_snoc; [exact Hnd|]. intros H.
  apply existsb_eqb_In in H. congruence.
Qed.

Lemma dict_set_set d k v1 v2 :
  dict_set (dict_set d k v1) k v2 = dict_set d k v2.
Proof.
  induction d as [|[k0 v0] d IH]; cbn.
  - now rewrite pystr_eqb_refl.
  - destruct (pystr_eqb k0 k) eqn:E0; cbn; rewrite E0; [reflexivity|].
    now rewrite IH.
Qed.

Lemma dict_get_default_set d k v dflt :
  dict_get_default (dict_set d k v) k dflt = v.
Proof.
  unfold dict_get_default. now rewrite dict_get_set, pystr_eqb_refl.
Qed.

Lemma dict_get_keys d k v : dict_get d k = Some v -> In k (dict_keys d).
Proof.
  intros H. apply dict_get_In in H. unfold dict_keys.
  apply in_map_iff. now exists (k, v).
Qed.

End DictMore.

Lemma truthy_strip (s : pystr) : truthy (strip s) = true -> truthy s = true.
Proof. destruct s; [discriminate | reflexivity]. Qed.

Lemma build_tree_skipped (memo_data : dict pystr) :
  (forall key text, In (key, text) memo_data -> is_skipped key text) ->
  forall tree,
    fold_left (fun t km => store_memo t (fst km) (snd km)) memo_data tree
    = tree.
Proof.
  induction memo_data as [|[k t] l IH]; intros Hs tree; [reflexivity|].
  cbn [fold_left fst snd]. rewrite store_memo_skips.
  - apply IH. intros key text Hin. apply Hs. now right.
  - apply Hs. now left.
Qed.

(** X3: a map in which every pair is passed over (blank text, no
    prefix, or fewer than three segments), the empty map among them,
    gives the empty report, whatever the working directory. *)
Theorem format_memo_data_all_skipped (cwd : Path) (memo_data : dict pystr) :
  (forall key text, In (key, text) memo_data -> is_skipped key text) ->
  format_memo_data cwd memo_data = Ok [].
Proof.
  intros Hs. unfold format_memo_data, build_tree.
  now rewrite (build_tree_skipped memo_data Hs).
Qed.

Lemma format_memo_data_all_skipped_witness :
  format_memo_data (Path_of_str (py "/proj"))
    [ (py "memo_/elsewhere/a.py::file::a.py", py "  ");
      (py "note", py "kept elsewhere") ]
  = Ok [].
Proof.
  apply format_memo_data_all_skipped. intros key text Hin.
  destruct Hin as [[= <- <-]|[[= <- <-]|[]]].
  - left. reflexivity.
  - right. left. reflexivity.
Defined.

Lemma store_memo_keys_inv (tree : memo_tree) (key memo p : pystr) :
  In p (dict_keys (store_memo tree key memo)) ->
  In p (dict_keys tree)
  \/ (truthy (strip memo) = true
      /\ exists scope name par,
           decode_key key = Some (p, scope, name, par)
           /\ is_stored scope par = true).
Proof.
  unfold store_memo.
  destruct (truthy (strip memo)) eqn:Et; cbn [negb]; [|now left].
  destruct (decode_key key) as [[[[path scope] name] par]|] eqn:Ed;
    [|now left].
  unfold is_stored.
  destruct (pystr_eqb scope (py "file")) eqn:E1;
    [|destruct (pystr_eqb scope (py "function")) eqn:E2;
      [|destruct (pystr_eqb scope (py "class")) eqn:E3;
        [|destruct (pystr_eqb scope (py "method")) eqn:E4;
          [destruct par as [q|]; [destruct (truthy q) eqn:Eq|]|]]]];
    intros H; try (now left);
    (apply dict_keys_set_inv in H as [->|H]; [right|now left]);
    (split; [reflexivity|]); exists scope, name;
    eexists; (split; [reflexivity|]);
    rewrite ?E1, ?E2, ?E3, ?E4; cbn; try reflexivity; exact Eq.
Qed.

Lemma build_tree_keys_inv (memo_data : dict pystr) (p : pystr) :
  In p (dict_keys (build_tree memo_data)) ->
  exists key memo scope name par,
    In (key, memo) memo_data
    /\ truthy (strip memo) = true
    /\ decode_key key = Some (p, scope, name, par)
    /\ is_stored scope par = true.
Proof.
  unfold build_tree.
  assert (G : forall l tree,
             In p (dict_keys
                     (fold_left
                        (fun t km => store_memo t (fst km) (snd km)) l tree)) ->
             In p (dict_keys tree)
             \/ exists key memo scope name par,
                  In (key, memo) l
                  /\ truthy (strip memo) = true
                  /\ decode_key key = Some (p, scope, name, par)
                  /\ is_stored scope par = true).
  { induction l as [|[k t] l IH]; intros tree H; [now left|].
    cbn [fold_left fst snd] in H. apply IH in H as [H|H].
    - apply store_memo_keys_inv in H as [H|[Ht (scope & name & par & Hd & Hs)]];
        [now left|].
      right. exists k, t, scope, name, par. repeat split; auto. now left.
    - right. destruct H as (key & memo & scope & name & par & Hin & H).
      exists key, memo, scope, name, par. split; [now right | exact H]. }
  intros H. apply G in H as [[]|H]. exact H.
Qed.

Lemma render_ok (cwd : Path) (items : list (pystr * file_node)) :
  (forall p c, In (p, c) items -> is_under (Path_of_str p) cwd) ->
  exists lines, render cwd items = Ok lines.
Proof.
  induction items as [|[p c] items IH]; intros Hu; [now exists []|].
  cbn [render].
  destruct (proj1 (relative_to_under _ _) (Hu p c (or_introl eq_refl)))
    as [rel ->].
  destruct IH as [rest ->].
  - intros q d Hin. apply (Hu q d). now right.
  - cbn [bind]. eauto.
Qed.

(** X4: [format_memo_data] returns a report exactly when the path of
    every entry it stores is under the working directory. *)
Theorem format_memo_data_succeeds_iff (cwd : Path) (memo_data : dict pystr) :
  (exists report, format_memo_data cwd memo_data = Ok report)
  <-> (forall key memo path scope name par,
         In (key, memo) memo_data ->
         truthy (strip memo) = true ->
         decode_key key = Some (path, scope, name, par) ->
         is_stored scope par = true ->
         is_under (Path_of_str path) cwd).
Proof.
  split.
  - intros [report Hr] key memo path scope name par Hin Ht Hd Hs.
    destruct (relative_to (Path_of_str path) cwd) as [rel|e] eqn:E.
    + apply relative_to_under. eauto.
    + exfalso. apply relative_to_error in E as Hk. subst e.
      pose proof (build_tree_stored _ _ _ _ _ _ _ Hin Ht Hd Hs) as Hkeys.
      unfold dict_keys in Hkeys.
      apply in_map_iff in Hkeys as [[p content] [Hp Hc]]. cbn in Hp. subst p.
      unfold format_memo_data in Hr.
      rewrite (render_path_error cwd _ path content) in Hr;
        [discriminate| |exact E].
      now apply sorted_items_In.
  - intros Hall. unfold format_memo_data.
    destruct (render_ok cwd (sorted_items (build_tree memo_data)))
      as [lines ->]; [|cbn; eauto].
    intros p c Hin. apply (proj1 (sorted_items_In _ _)) in Hin.
    assert (Hk : In p (dict_keys (build_tree memo_data))).
    { unfold dict_keys. apply in_map_iff. exists (p, c). split; [reflexivity|].
      exact Hin. }
    apply build_tree_keys_inv in Hk
      as (key & memo & scope & name & par & Hin' & Ht & Hd & Hs).
    exact (Hall _ _ _ _ _ _ Hin' Ht Hd Hs).
Qed.

(** X5: a memo stored under the method name ["__memo__"] of a class is
    taken for the memo of the class itself: the pair can be replaced by
    the pair of the class key without any change to the result. *)
Theorem format_memo_data_memo_method_is_class_memo
    (cwd : Path) (before after : dict pystr)
    (method_key class_key memo path cls : pystr)
    (par : option pystr) :
  decode_key method_key
  = Some (path, py "method", py "__memo__", Some cls) ->
  truthy cls = true ->
  decode_key class_key = Some (path, py "class", cls, par) ->
  format_memo_data cwd (before ++ (method_key, memo) :: after)
  = format_memo_data cwd (before ++ (class_key, memo) :: after).
Proof.
  intros Hm Hc Hk. unfold format_memo_data, build_tree.
  rewrite !fold_left_app. cbn [fold_left fst snd].
  assert (E : forall tree,
             store_memo tree method_key memo = store_memo tree class_key memo).
  { intros tree. unfold store_memo. rewrite Hm, Hk, Hc.
    destruct (negb (truthy (strip memo))); reflexivity. }
  now rewrite E.
Qed.

Lemma format_memo_data_memo_method_is_class_memo_witness :
  format_memo_data (Path_of_str (py "/proj"))
    ([] ++ (py "memo_/proj/a.py::method::__memo__::Bar", py "odd") :: [])
  = format_memo_data (Path_of_str (py "/proj"))
      ([] ++ (py "memo_/proj/a.py::class::Bar", py "odd") :: []).
Proof.
  apply (format_memo_data_memo_method_is_class_memo
           (Path_of_str (py "/proj")) [] []
           (py "memo_/proj/a.py::method::__memo__::Bar")
           (py "memo_/proj/a.py::class::Bar") (py "odd")
           (py "/proj/a.py") (py "Bar") None);
    reflexivity.
Defined.

Lemma format_memo_data_succeeds_iff_witness :
  exists report,
    format_memo_data (Path_of_str (py "/proj"))
      [ (py "memo_/proj/a.py::function::f", py "does f");
        (py "memo_/elsewhere/b.py::method::m", py "never stored") ]
    = Ok report.
Proof.
  apply (proj2 (format_memo_data_succeeds_iff (Path_of_str (py "/proj"))
                  [ (py "memo_/proj/a.py::function::f", py "does f");
                    (py "memo_/elsewhere/b.py::method::m",
                     py "never stored") ])).
  intros key memo path scope name par Hin Ht Hd Hs.
  destruct Hin as [[= <- <-]|[[= <- <-]|[]]].
  - vm_compute in Hd. injection Hd as <- _ _ _.
    split; [reflexivity|]. exists [py "a.py"]. reflexivity.
  - vm_compute in Hd. injection Hd as _ <- _ <-. discriminate Hs.
Defined.

Lemma format_memo_data_lines (cwd : Path) (memo_data : dict pystr) :
  format_memo_data cwd memo_data
  = let! lines := memo_lines cwd memo_data in Ok (join newline lines).
Proof. reflexivity. Qed.

(** An entry that is not a stored file memo of [p] leaves the file memo
    of [p] as it is. *)
Lemma store_memo_file_memo_kept (tree : memo_tree) (key text p : pystr)
    (node : file_node) :
  dict_get tree p = Some node ->
  (truthy (strip text) = true ->
   forall n q, decode_key key <> Some (p, py "file", n, q)) ->
  exists node',
    dict_get (store_memo tree key text) p = Some node'
    /\ file_memo node' = file_memo node.
Proof.
  intros Hg Hno. unfold store_memo.
  destruct (truthy (strip text)) eqn:Et; cbn [negb]; [|eauto].
  specialize (Hno eq_refl).
  destruct (decode_key key) as [[[[path scope] name] par]|] eqn:Ed; [|eauto].
  assert (Hset : forall fs cs,
            pystr_eqb scope (py "file") = false ->
            exists node',
              dict_get
                (dict_set tree path
                   (mkNode (file_memo (dict_get_default tree path new_node))
                      fs cs)) p = Some node'
              /\ file_memo node' = file_memo node).
  { intros fs cs _. rewrite dict_get_set.
    destruct (pystr_eqb path p) eqn:Ep; [|eauto].
    apply pystr_eqb_eq in Ep. subst path. eexists. split; [reflexivity|].
    cbn. unfold dict_get_default. now rewrite Hg. }
  destruct (pystr_eqb scope (py "file")) eqn:E1.
  - apply pystr_eqb_eq in E1. subst scope. rewrite dict_get_set.
    destruct (pystr_eqb path p) eqn:Ep; [|eauto].
    apply pystr_eqb_eq in Ep. subst path. now destruct (Hno name par).
  - destruct (pystr_eqb scope (py "function")); [now apply Hset|].
    destruct (pystr_eqb scope (py "class")); [now apply Hset|].
    destruct (pystr_eqb scope (py "method")); [|eauto].
    destruct par as [q|]; [|eauto].
    destruct (truthy q); [now apply Hset | eauto].
Qed.

Lemma store_memo_file_memo_set (tree : memo_tree)
    (key text p name : pystr) (par : option pystr) :
  truthy (strip text) = true ->
  decode_key key = Some (p, py "file", name, par) ->
  exists node,
    dict_get (store_memo tree key text) p = Some node
    /\ file_memo node = text.
Proof.
  intros Ht Hd. unfold store_memo. rewrite Ht, Hd. cbn [negb].
  rewrite pystr_eqb_refl, dict_get_set, pystr_eqb_refl. eauto.
Qed.

Lemma build_tree_file_memo_kept (after : dict pystr) (p : pystr) :
  (forall k t n q,
     In (k, t) after -> truthy (strip t) = true ->
     decode_key k <> Some (p, py "file", n, q)) ->
  forall tree node,
    dict_get tree p = Some node ->
    exists node',
      dict_get
        (fold_left (fun t km => store_memo t (fst km) (snd km)) after tree) p
      = Some node'
      /\ file_memo node' = file_memo node.
Proof.
  induction after as [|[k t] l IH]; intros Hno tree node Hg; [eauto|].
  cbn [fold_left fst snd].
  destruct (store_memo_file_memo_kept tree k t p node Hg) as [n1 [Hg1 Hf1]].
  - intros Ht n q. apply (Hno k t n q); [now left | exact Ht].
  - destruct (IH (fun k' t' n q Hin => Hno k' t' n q (or_intror Hin))
                _ _ Hg1) as [n2 [Hg2 Hf2]].
    exists n2. split; [exact Hg2 | congruence].
Qed.

(** The lines of a file of the tree form one run of the report. *)
Lemma render_block (cwd : Path) (items : list (pystr * file_node))
    (p : pystr) (node : file_node) (lines : list pystr) :
  In (p, node) items ->
  render cwd items = Ok lines ->
  exists rel l1 l2,
    relative_to (Path_of_str p) cwd = Ok rel
    /\ lines = l1 ++ file_lines (str_of_Path rel) node ++ l2.
Proof.
  revert lines. induction items as [|[p0 c0] items IH]; intros lines Hin Hr;
    [destruct Hin|].
  cbn [render] in Hr.
  destruct (relative_to (Path_of_str p0) cwd) as [rel0|] eqn:E0;
    [|discriminate].
  destruct (render cwd items) as [rest|] eqn:Er; [|discriminate].
  cbn [bind] in Hr.
  assert (Hl : file_lines (str_of_Path rel0) c0 ++ rest = lines)
    by congruence.
  subst lines. clear Hr.
  destruct Hin as [Heq|Hin].
  - injection Heq as -> ->. exists rel0, [], rest. auto.
  - destruct (IH rest Hin eq_refl) as (rel & l1 & l2 & Hrel & ->).
    exists rel, (file_lines (str_of_Path rel0) c0 ++ l1), l2.
    split; [exact Hrel|]. apply List.app_assoc.
Qed.

(** X6: the file memo shown for a path is the text of the last entry
    of scope [file] with that path whose text is not blank, whatever
    name segment the entries carry: its line follows the line of the
    path. *)
Theorem memo_lines_file_memo_last_wins
    (cwd : Path) (before after : dict pystr)
    (key text path name : pystr) (par : option pystr)
    (lines : list pystr) :
  truthy (strip text) = true ->
  decode_key key = Some (path, py "file", name, par) ->
  (forall k t n q,
     In (k, t) after -> truthy (strip t) = true ->
     decode_key k <> Some (path, py "file", n, q)) ->
  memo_lines cwd (before ++ (key, text) :: after) = Ok lines ->
  exists rel l1 l2,
    relative_to (Path_of_str path) cwd = Ok rel
    /\ lines
       = l1 ++ (py "📄 " ++ str_of_Path rel) :: (py "  📌 " ++ text) :: l2.
Proof.
  intros Ht Hd Hno Hl. unfold memo_lines, build_tree in Hl.
  rewrite fold_left_app in Hl. cbn [fold_left fst snd] in Hl.
  destruct (store_memo_file_memo_set
              (fold_left (fun t km => store_memo t (fst km) (snd km)) before [])
              key text path name par Ht Hd) as [n0 [Hg0 Hf0]].
  destruct (build_tree_file_memo_kept after path Hno _ _ Hg0)
    as [node [Hg Hf]].
  apply dict_get_In, sorted_items_In in Hg.
  destruct (render_block cwd _ path node lines Hg Hl)
    as (rel & l1 & l2 & Hrel & ->).
  exists rel, l1. unfold file_lines. rewrite Hf, Hf0, (truthy_strip _ Ht).
  cbn [app]. eexists. split; [exact Hrel | reflexivity].
Qed.

Lemma memo_lines_file_memo_last_wins_witness :
  exists rel l1 l2,
    relative_to (Path_of_str (py "/proj/a.py")) (Path_of_str (py "/proj"))
    = Ok rel
    /\ [ py "📄 a.py"; py "  📌 second"; py "  [FUNC] f() : does f"; py "" ]
       = l1 ++ (py "📄 " ++ str_of_Path rel)
            :: (py "  📌 " ++ py "second") :: l2.
Proof.
  apply (memo_lines_file_memo_last_wins (Path_of_str (py "/proj"))
           [(py "memo_/proj/a.py::file::a.py", py "first")]
           [(py "memo_/proj/a.py::function::f", py "does f");
            (py "memo_/proj/a.py::file::x", py " ")]
           (py "memo_/proj/a.py::file::other") (py "second")
           (py "/proj/a.py") (py "other") None).
  - reflexivity.
  - reflexivity.
  - intros k t n q [[= <- <-]|[[= <- <-]|[]]] Ht; vm_compute; discriminate.
  - vm_compute. reflexivity.
Defined.

Lemma str_le_refl (a : pystr) : str_le a a = true.
Proof.
  induction a as [|x a IH]; cbn; [reflexivity|].
  now rewrite N.ltb_irrefl.
Qed.

Lemma str_le_total (a b : pystr) : str_le a b = false -> str_le b a = true.
Proof.
  revert b. induction a as [|x a IH]; intros [|y b]; cbn; try easy.
  destruct (x <? y)%N eqn:Exy; [discriminate|].
  destruct (y <? x)%N eqn:Eyx; [reflexivity|]. apply IH.
Qed.

Lemma str_le_trans (a b c : pystr) :
  str_le a b = true -> str_le b c = true -> str_le a c = true.
Proof.
  revert b c. induction a as [|x a IH]; intros [|y b] [|z c]; cbn; try easy.
  destruct (x <? y)%N eqn:Exy.
  - intros _. destruct (y <? z)%N eqn:Eyz.
    + intros _. apply N.ltb_lt in Exy, Eyz.
      assert ((x <? z)%N = true) as -> by (apply N.ltb_lt; lia). reflexivity.
    + destruct (z <? y)%N eqn:Ezy; [discriminate|]. intros _.
      apply N.ltb_lt in Exy. apply N.ltb_ge in Eyz, Ezy.
      assert ((x <? z)%N = true) as -> by (apply N.ltb_lt; lia). reflexivity.
  - destruct (y <? x)%N eqn:Eyx; [discriminate|]. intros Hab.
    apply N.ltb_ge in Exy, Eyx. assert (x = y) by lia. subst y.
    destruct (x <? z)%N; [reflexivity|].
    destruct (z <? x)%N; [discriminate|]. now apply IH.
Qed.

Lemma str_le_antisym (a b : pystr) :
  str_le a b = true -> str_le b a = true -> a = b.
Proof.
  revert b. induction a as [|x a IH]; intros [|y b]; cbn; try easy.
  destruct (x <? y)%N eqn:Exy; destruct (y <? x)%N eqn:Eyx; try easy.
  - apply N.ltb_lt in Exy, Eyx. lia.
  - intros H1 H2. apply N.ltb_ge in Exy, Eyx.
    assert (x = y) by lia. subst y. f_equal. now apply IH.
Qed.

Section SortedItems.
Context {V : Type}.
Implicit Types (x : pystr * V) (l : list (pystr * V)).

Lemma insert_sorted_keys_Forall (P : pystr -> Prop) x l :
  P (fst x) -> Forall P (dict_keys l) -> Forall P (dict_keys (insert_sorted x l)).
Proof.
  intros Hx. induction l as [|y l IH]; cbn; intros Hl.
  - now constructor.
  - destruct (str_le (fst x) (fst y)); cbn.
    + now constructor.
    + inversion Hl; subst. constructor; auto.
Qed.

Lemma insert_sorted_sorted x l :
  StronglySorted (fun a b => str_le a b = true) (dict_keys l) ->
  StronglySorted (fun a b => str_le a b = true) (dict_keys (insert_sorted x l)).
Proof.
  induction l as [|y l IH]; cbn; intros Hs.
  - constructor; constructor.
  - destruct (str_le (fst x) (fst y)) eqn:E; cbn.
    + constructor; [exact Hs|]. inversion Hs as [|? ? Hs' Hall]; subst.
      constructor; [exact E|].
      eapply List.Forall_impl; [|exact Hall].
      intros z Hz. now apply (str_le_trans _ (fst y)).
    + inversion Hs as [|? ? Hs' Hall]; subst. constructor; [now apply IH|].
      apply (insert_sorted_keys_Forall (fun z => str_le (fst y) z = true));
        [now apply str_le_total | exact Hall].
Qed.

Lemma sorted_items_sorted l :
  StronglySorted (fun a b => str_le a b = true) (dict_keys (sorted_items l)).
Proof.
  induction l as [|x l IH]; cbn; [constructor|].
  now apply insert_sorted_sorted.
Qed.

Lemma insert_sorted_keys_In x l k :
  In k (dict_keys (insert_sorted x l)) <-> k = fst x \/ In k (dict_keys l).
Proof.
  induction l as [|y l IH]; cbn.
  - intuition congruence.
  - destruct (str_le (fst x) (fst y)); cbn; [intuition congruence|].
    rewrite IH. intuition congruence.
Qed.

Lemma insert_sorted_NoDup x l :
  ~ In (fst x) (dict_keys l) -> List.NoDup (dict_keys l) ->
  List.NoDup (dict_keys (insert_sorted x l)).
Proof.
  induction l as [|y l IH]; cbn; intros Hx Hnd.
  - constructor; [intros []|constructor].
  - destruct (str_le (fst x) (fst y)); cbn.
    + constructor; [exact Hx | exact Hnd].
    + inversion Hnd; subst. constructor.
      * intros Hin. apply (proj1 (insert_sorted_keys_In x l (fst y))) in Hin.
        destruct Hin as [Heq|Hin]; [|contradiction].
        apply Hx. left. congruence.
      * apply IH; [|assumption]. intros H. apply Hx. now right.
Qed.

Lemma sorted_items_keys_In l k :
  In k (dict_keys (sorted_items l)) <-> In k (dict_keys l).
Proof.
  induction l as [|x l IH]; cbn; [tauto|].
  rewrite (insert_sorted_keys_In x (sorted_items l) k), IH.
  intuition congruence.
Qed.

Lemma sorted_items_NoDup l :
  List.NoDup (dict_keys l) -> List.NoDup (dict_keys (sorted_items l)).
Proof.
  induction l as [|x l IH]; cbn; intros Hnd; [constructor|].
  inversion Hnd; subst. apply insert_sorted_NoDup; [|auto].
  intros Hin. now apply (proj1 (sorted_items_keys_In l (fst x))) in Hin.
Qed.

Lemma dict_get_of_In l k v :
  List.NoDup (dict_keys l) -> In (k, v) l -> dict_get l k = Some v.
Proof.
  induction l as [|[k0 v0] l IH]; cbn; intros Hnd Hin; [destruct Hin|].
  inversion Hnd as [|? ? Hk Hnd']; subst.
  destruct Hin as [[= -> ->]|Hin].
  - now rewrite pystr_eqb_refl.
  - destruct (pystr_eqb k0 k) eqn:E; [|auto].
    apply pystr_eqb_eq in E. subst k0. exfalso. apply Hk.
    unfold dict_keys. apply in_map_iff. exists (k, v). auto.
Qed.

End SortedItems.

Lemma store_memo_NoDup (tree : memo_tree) (key memo : pystr) :
  List.NoDup (dict_keys tree) ->
  List.NoDup (dict_keys (store_memo tree key memo)).
Proof.
  intros H. unfold store_memo.
  repeat match goal with
         | |- context [if ?b then _ else _] => destruct b
         | |- context [match ?x with _ => _ end] => destruct x
         end;
    auto using dict_keys_NoDup_set.
Qed.

Lemma build_tree_NoDup (memo_data : dict pystr) :
  List.NoDup (dict_keys (build_tree memo_data)).
Proof.
  unfold build_tree.
  assert (G : forall l tree,
             List.NoDup (dict_keys tree) ->
             List.NoDup
               (dict_keys
                  (fold_left (fun t km => store_memo t (fst km) (snd km))
                     l tree))).
  { induction l as [|[k t] l IH]; intros tree H; [exact H|].
    cbn [fold_left]. apply IH. now apply store_memo_NoDup. }
  apply G. constructor.
Qed.

(** The report as the run of the blocks of its files. *)
Lemma render_blocks (cwd : Path) (items : list (pystr * file_node))
    (lines : list pystr) :
  render cwd items = Ok lines ->
  exists blocks : list (pystr * file_node * Path),
    List.map fst blocks = items
    /\ Forall
         (fun b => relative_to (Path_of_str (fst (fst b))) cwd = Ok (snd b))
         blocks
    /\ lines
       = flat_map (fun b => file_lines (str_of_Path (snd b)) (snd (fst b)))
           blocks.
Proof.
  revert lines. induction items as [|[p c] items IH]; intros lines Hr.
  - cbn in Hr. assert (lines = []) by congruence. subst.
    exists []. repeat split. constructor.
  - cbn [render] in Hr.
    destruct (relative_to (Path_of_str p) cwd) as [rel|] eqn:E;
      [|discriminate].
    destruct (render cwd items) as [rest|] eqn:Er; [|discriminate].
    cbn [bind] in Hr.
    assert (Hl : file_lines (str_of_Path rel) c ++ rest = lines)
      by congruence.
    subst lines. clear Hr.
    destruct (IH rest eq_refl) as (blocks & Hm & Hf & ->).
    exists ((p, c, rel) :: blocks). cbn [List.map flat_map fst snd].
    repeat split; [now rewrite Hm | now constructor].
Qed.

(** X7: a report that is produced is made of one block of lines per
    path of the tree, each with the path relative to the working
    directory and the content stored for it, the blocks coming in
    increasing order of the stored path strings, each path once. *)
Theorem memo_lines_blocks (cwd : Path) (memo_data : dict pystr)
    (lines : list pystr) :
  memo_lines cwd memo_data = Ok lines ->
  exists blocks : list (pystr * file_node * Path),
    lines
    = flat_map (fun b => file_lines (str_of_Path (snd b)) (snd (fst b)))
        blocks
    /\ Forall
         (fun b =>
            relative_to (Path_of_str (fst (fst b))) cwd = Ok (snd b)
            /\ dict_get (build_tree memo_data) (fst (fst b))
               = Some (snd (fst b)))
         blocks
    /\ StronglySorted (fun a b => str_le a b = true)
         (List.map (fun b => fst (fst b)) blocks)
    /\ List.NoDup (List.map (fun b => fst (fst b)) blocks)
    /\ (forall p,
          In p (List.map (fun b => fst (fst b)) blocks)
          <-> In p (dict_keys (build_tree memo_data))).
Proof.
  intros Hl. unfold memo_lines in Hl.
  destruct (render_blocks cwd _ lines Hl) as (blocks & Hm & Hf & ->).
  assert (Hk : List.map (fun b => fst (fst b)) blocks
               = dict_keys (sorted_items (build_tree memo_data))).
  { unfold dict_keys. rewrite <- Hm, List.map_map. reflexivity. }
  exists blocks. split; [reflexivity|]. rewrite Hk. repeat split.
  - apply List.Forall_forall. intros b Hb. split.
    + now apply (proj1 (List.Forall_forall _ _) Hf).
    + apply dict_get_of_In; [apply build_tree_NoDup|].
      apply (proj1 (sorted_items_In _ _)). rewrite <- Hm.
      apply in_map_iff. exists b. split; [|exact Hb]. now destruct b as [[? ?] ?].
  - apply sorted_items_sorted.
  - apply sorted_items_NoDup, build_tree_NoDup.
  - apply sorted_items_keys_In.
  - apply sorted_items_keys_In.
Qed.

Lemma memo_lines_blocks_witness :
  exists blocks : list (pystr * file_node * Path),
    [ py "📄 a.py"; py "  [FUNC] f() : does f"; py "";
      py "📄 b.py"; py "  📌 top"; py "" ]
    = flat_map (fun b => file_lines (str_of_Path (snd b)) (snd (fst b)))
        blocks
    /\ Forall
         (fun b =>
            relative_to (Path_of_str (fst (fst b))) (Path_of_str (py "/proj"))
            = Ok (snd b)
            /\ dict_get
                 (build_tree
                    [ (py "memo_/proj/b.py::file::b.py", py "top");
                      (py "memo_/proj/a.py::function::f", py "does f") ])
                 (fst (fst b))
               = Some (snd (fst b)))
         blocks
    /\ StronglySorted (fun a b => str_le a b = true)
         (List.map (fun b => fst (fst b)) blocks)
    /\ List.NoDup (List.map (fun b => fst (fst b)) blocks)
    /\ (forall p,
          In p (List.map (fun b => fst (fst b)) blocks)
          <-> In p (dict_keys
                      (build_tree
                         [ (py "memo_/proj/b.py::file::b.py", py "top");
                           (py "memo_/proj/a.py::function::f",
                            py "does f") ]))).
Proof.
  apply (memo_lines_blocks (Path_of_str (py "/proj"))
           [ (py "memo_/proj/b.py::file::b.py", py "top");
             (py "memo_/proj/a.py::function::f", py "does f") ]).
  vm_compute. reflexivity.
Defined.

(** What the first loop does with a stored function memo. *)
Lemma store_memo_function (tree : memo_tree) (key text p n : pystr)
    (par : option pystr) :
  truthy (strip text) = true ->
  decode_key key = Some (p, py "function", n, par) ->
  store_memo tree key text
  = dict_set tree p
      (mkNode (file_memo (dict_get_default tree p new_node))
         (dict_set (functions (dict_get_default tree p new_node)) n text)
         (classes (dict_get_default tree p new_node))).
Proof. intros Ht Hd. unfold store_memo. now rewrite Ht, Hd. Qed.

Section FunctionMemos.
Variable resolve_str : Path -> pystr.
Variable file : Path.

Let p : pystr := resolve_str file.

(** The tree that holds the function memos [fs] of the one file. *)
Let tree_of (fs : dict pystr) : memo_tree :=
  match fs with
  | [] => []
  | _ => [(p, mkNode [] fs [])]
  end.

Lemma build_tree_functions (memos : list (pystr * pystr * pystr)) :
  forall fs : dict pystr,
    List.NoDup (List.map (fun m => snd (fst m)) memos) ->
    (forall n,
       In n (List.map (fun m => snd (fst m)) memos) ->
       ~ In n (dict_keys fs)) ->
    (forall k n t,
       In (k, n, t) memos ->
       make_unique_key resolve_str file (py "function") n None = Ok k
       /\ key_parts_ok p (py "function") n None
       /\ truthy (strip t) = true) ->
    fold_left (fun t km => store_memo t (fst km) (snd km))
      (List.map (fun m => (fst (fst m), snd m)) memos) (tree_of fs)
    = tree_of (fs ++ List.map (fun m => (snd (fst m), snd m)) memos).
Proof.
  induction memos as [|[[k n] t] memos IH]; intros fs Hnd Hfresh Hok.
  - cbn. now rewrite app_nil_r.
  - cbn [List.map fold_left fst snd].
    destruct (Hok k n t (or_introl eq_refl)) as (Hkey & Hparts & Ht).
    rewrite (store_memo_function _ _ _ p n None Ht
               (decode_make_unique_key resolve_str file _ _ _ None Hparts
                  Hkey)).
    assert (Hnode : dict_get_default (tree_of fs) p new_node = mkNode [] fs []).
    { destruct fs; [reflexivity|]. unfold dict_get_default. cbn.
      now rewrite pystr_eqb_refl. }
    rewrite Hnode. cbn [file_memo functions classes].
    rewrite (dict_set_new fs n t) by (apply Hfresh; now left).
    assert (Hset : dict_set (tree_of fs) p (mkNode [] (fs ++ [(n, t)]) [])
                   = tree_of (fs ++ [(n, t)])).
    { destruct fs; [reflexivity|]. cbn. now rewrite pystr_eqb_refl. }
    rewrite Hset. cbn [List.map fst snd] in Hnd.
    inversion Hnd as [|? ? Hn Hnd']; subst.
    rewrite (IH (fs ++ [(n, t)]) Hnd').
    + now rewrite <- List.app_assoc.
    + intros n' Hn' Hin. unfold dict_keys in Hin.
      rewrite List.map_app, in_app_iff in Hin. destruct Hin as [Hin|[<-|[]]].
      * apply (Hfresh n'); [now right | exact Hin].
      * contradiction.
    + intros k' n' t' Hin. apply Hok. now right.
Qed.

(** X8: take one file whose resolved path is under the working
    directory and a list, not empty, of functions of distinct names,
    each with the key [make_unique_key] returns for it and a memo that
    is not blank, the path and the names being such that the components
    of the keys can be told apart.  The map of these keys to these memos
    gives the line of the file, then one line per function in the order
    of the map, then the separator. *)
Theorem format_memo_data_functions (cwd rel : Path)
    (memos : list (pystr * pystr * pystr)) :
  memos <> [] ->
  List.NoDup (List.map (fun m => snd (fst m)) memos) ->
  (forall k n t,
     In (k, n, t) memos ->
     make_unique_key resolve_str file (py "function") n None = Ok k
     /\ key_parts_ok (resolve_str file) (py "function") n None
     /\ truthy (strip t) = true) ->
  relative_to (Path_of_str (resolve_str file)) cwd = Ok rel ->
  format_memo_data cwd (List.map (fun m => (fst (fst m), snd m)) memos)
  = Ok (join newline
          ([py "📄 " ++ str_of_Path rel]
           ++ List.map
                (fun m =>
                   py "  [FUNC] " ++ snd (fst m) ++ py "() : " ++ snd m)
                memos
           ++ [[]])).
Proof.
  intros Hne Hnd Hok Hrel. unfold format_memo_data, build_tree.
  pose proof (build_tree_functions memos [] Hnd (fun n _ H => H) Hok) as Hb.
  cbn [app] in Hb.
  change (tree_of []) with (@nil (pystr * file_node)) in Hb.
  rewrite Hb. clear Hb. destruct memos as [|m memos]; [contradiction|].
  cbn [List.map tree_of sorted_items insert_sorted render]. fold p in Hrel.
  rewrite Hrel. cbn [bind]. unfold file_lines.
  cbn [file_memo functions classes truthy flat_map List.map fst snd].
  rewrite app_nil_r, List.map_map. reflexivity.
Qed.

End FunctionMemos.

Lemma format_memo_data_functions_witness :
  format_memo_data (Path_of_str (py "/proj"))
    (List.map (fun m => (fst (fst m), snd m))
       [ (py "memo_/proj/pkg/a.py::function::zeta", py "zeta",
          py "comes first");
         (py "memo_/proj/pkg/a.py::function::alpha", py "alpha",
          py "comes second") ])
  = Ok (join newline
          ([py "📄 " ++ str_of_Path (mkPath [] [py "pkg"; py "a.py"])]
           ++ List.map
                (fun m =>
                   py "  [FUNC] " ++ snd (fst m) ++ py "() : " ++ snd m)
                [ (py "memo_/proj/pkg/a.py::function::zeta", py "zeta",
                   py "comes first");
                  (py "memo_/proj/pkg/a.py::function::alpha", py "alpha",
                   py "comes second") ]
           ++ [[]])).
Proof.
  apply (format_memo_data_functions str_of_Path
           (Path_of_str (py "/proj/pkg/a.py")) (Path_of_str (py "/proj"))
           (mkPath [] [py "pkg"; py "a.py"])).
  - discriminate.
  - repeat constructor; cbn; intros H;
      repeat (destruct H as [H|H]; [discriminate H|]); exact H.
  - intros k n t [[= <- <- <-]|[[= <- <- <-]|[]]]; repeat split; reflexivity.
  - reflexivity.
Defined.

(* ===================================================================== *)
(** * Project scanner: further properties *)
(* ===================================================================== *)

Lemma parts_joinpath (top : Path) (rel : list pystr) :
  parts (joinpath top rel) = parts top ++ rel.
Proof. unfold parts, joinpath. cbn [root tail]. apply List.app_assoc. Qed.

Section ScannerMore.
Variable ast_parse : pystr -> parsed.
Variable read_file : Path -> option pystr.
Variable rglob_py : Path -> list (list pystr).
Variable project_path : pystr.
Variable exclude_folders : list pystr.

Let top : Path := Path_of_str project_path.
Let scan := scan_file ast_parse read_file project_path exclude_folders.

Lemma scan_found (st : catalog) (rel : list pystr) :
  scan (Ok st) (joinpath top rel)
  = if excluded exclude_folders (joinpath top rel) then Ok st
    else
      match extract_structure ast_parse read_file (joinpath top rel) with
      | Ok ex =>
          Ok (dict_set st (str_of_Path (parent (mkPath [] rel)))
                (dict_set
                   (dict_get_default st
                      (str_of_Path (parent (mkPath [] rel))) [])
                   (name (joinpath top rel)) (ex, joinpath top rel)))
      | Err e => Err e
      end.
Proof.
  exact (scan_file_found ast_parse project_path exclude_folders read_file
           st rel).
Qed.

Lemma extract_structure_error_kinds (p : Path) (e : error) :
  extract_structure ast_parse read_file p = Err e ->
  e = ReadError \/ e = ParseError \/ e = SourceError.
Proof.
  unfold extract_structure. destruct (read_file p) as [text|];
    [destruct (ast_parse text)|]; intros [= <-]; auto.
Qed.

(** An error of the scan is the error of the extraction of a file that
    passed the exclusion test. *)
Lemma scan_error_source (e : error) :
  collect_project_structure ast_parse read_file rglob_py project_path
    exclude_folders = Err e ->
  exists rel,
    In rel (rglob_py top)
    /\ excluded exclude_folders (joinpath top rel) = false
    /\ extract_structure ast_parse read_file (joinpath top rel) = Err e.
Proof.
  unfold collect_project_structure. fold top. fold scan.
  assert (G : forall rels acc,
             fold_left scan (List.map (joinpath top) rels) acc = Err e ->
             acc = Err e
             \/ exists rel,
                  In rel rels
                  /\ excluded exclude_folders (joinpath top rel) = false
                  /\ extract_structure ast_parse read_file (joinpath top rel)
                     = Err e).
  { induction rels as [|r rels IH]; intros acc H; [now left|].
    cbn [List.map fold_left] in H.
    apply IH in H as [H|(rel & Hin & Hx)];
      [|right; exists rel; split; [now right | exact Hx]].
    destruct acc as [st|e1]; [|left; exact H].
    rewrite scan_found in H. right. exists r.
    destruct (excluded exclude_folders (joinpath top r)); [discriminate|].
    destruct (extract_structure ast_parse read_file (joinpath top r));
      [discriminate|].
    split; [now left|]. split; [reflexivity | congruence]. }
  intros H. apply G in H as [H|H]; [discriminate | exact H].
Qed.


Lemma has_entry_set_new (st : catalog) (folder fname : pystr)
    (v : structure * Path) :
  has_entry
    (dict_set st folder (dict_set (dict_get_default st folder []) fname v))
    folder fname.
Proof.
  eexists. exists v. rewrite dict_get_set, pystr_eqb_refl.
  split; [reflexivity|]. now rewrite dict_get_set, pystr_eqb_refl.
Qed.

Lemma has_entry_set_old (st : catalog) (folder fname fo fn : pystr)
    (v : structure * Path) :
  has_entry st fo fn ->
  has_entry
    (dict_set st folder (dict_set (dict_get_default st folder []) fname v))
    fo fn.
Proof.
  intros (files & w & Hf & Hw). unfold has_entry. rewrite dict_get_set.
  destruct (pystr_eqb folder fo) eqn:E; [|eauto].
  apply pystr_eqb_eq in E. subst fo. eexists. 
  unfold dict_get_default. rewrite Hf.
  destruct (pystr_eqb fname fn) eqn:E2.
  - exists v. split; [reflexivity|]. now rewrite dict_get_set, E2.
  - exists w. split; [reflexivity|]. now rewrite dict_get_set, E2.
Qed.

Lemma scan_files_complete (rels : list (list pystr)) :
  (forall rel,
     In rel rels ->
     excluded exclude_folders (joinpath top rel) = false ->
     exists text tree,
       read_file (joinpath top rel) = Some text
       /\ ast_parse text = Parsed tree) ->
  forall st,
    exists c,
      fold_left scan (List.map (joinpath top) rels) (Ok st) = Ok c
      /\ (forall fo fn, has_entry st fo fn -> has_entry c fo fn)
      /\ (forall rel,
            In rel rels ->
            excluded exclude_folders (joinpath top rel) = false ->
            has_entry c (str_of_Path (parent (mkPath [] rel)))
              (name (joinpath top rel))).
Proof.
  induction rels as [|r rels IH]; intros Hparse st.
  - exists st. cbn. repeat split; auto. intros rel [].
  - cbn [List.map fold_left]. rewrite scan_found.
    assert (Hrest : forall rel,
              In rel rels ->
              excluded exclude_folders (joinpath top rel) = false ->
              exists text tree,
                read_file (joinpath top rel) = Some text
                /\ ast_parse text = Parsed tree).
    { intros rel Hin. apply Hparse. now right. }
    destruct (excluded exclude_folders (joinpath top r)) eqn:Eex.
    + destruct (IH Hrest st) as (c & Hc & Hold & Hnew).
      exists c. split; [exact Hc|]. split; [exact Hold|].
      intros rel [<-|Hin] Hex; [congruence | now apply Hnew].
    + unfold extract_structure.
      destruct (Hparse r (or_introl eq_refl) Eex) as (text & tree & -> & ->).
      destruct (IH Hrest
                  (dict_set st (str_of_Path (parent (mkPath [] r)))
                     (dict_set
                        (dict_get_default st
                           (str_of_Path (parent (mkPath [] r))) [])
                        (name (joinpath top r))
                        (extract_structure_ast tree, joinpath top r))))
        as (c & Hc & Hold & Hnew).
      exists c. split; [exact Hc|]. split.
      * intros fo fn H. apply Hold. now apply has_entry_set_old.
      * intros rel [<-|Hin] Hex; [|now apply Hnew].
        apply Hold, has_entry_set_new.
Qed.

(** X10: when every file found below the root that passes the exclusion
    test is read and parses, the scan returns a catalog, and the
    catalog has an entry under the folder and the name of each of these
    files. *)
Theorem collect_project_structure_complete :
  (forall rel,
     In rel (rglob_py top) ->
     excluded exclude_folders (joinpath top rel) = false ->
     exists text tree,
       read_file (joinpath top rel) = Some text
       /\ ast_parse text = Parsed tree) ->
  exists c,
    collect_project_structure ast_parse read_file rglob_py project_path
      exclude_folders = Ok c
    /\ (forall rel,
          In rel (rglob_py top) ->
          excluded exclude_folders (joinpath top rel) = false ->
          exists ex p,
            catalog_entry c (str_of_Path (parent (mkPath [] rel)))
              (name (joinpath top rel)) ex p).
Proof.
  intros Hparse. unfold collect_project_structure. fold top. fold scan.
  destruct (scan_files_complete (rglob_py top) Hparse [])
    as (c & Hc & _ & Hnew).
  exists c. split; [exact Hc|]. intros rel Hin Hex.
  destruct (Hnew rel Hin Hex) as (files & [ex p] & Hf & Hv).
  exists ex, p, files. split; now apply dict_get_In.
Qed.

(** X11: when a component of the root itself is among the excluded
    names, every file is excluded and the catalog is empty, whatever
    the files contain. *)
Theorem collect_project_structure_root_excluded (part : pystr) :
  In part (parts top) ->
  In part exclude_folders ->
  collect_project_structure ast_parse read_file rglob_py project_path
    exclude_folders = Ok [].
Proof.
  intros Hp He. unfold collect_project_structure. fold top. fold scan.
  induction (rglob_py top) as [|r rels IH]; [reflexivity|].
  cbn [List.map fold_left]. rewrite scan_found.
  assert (excluded exclude_folders (joinpath top r) = true) as ->; [|exact IH].
  apply excluded_iff. exists part. split; [|exact He].
  rewrite parts_joinpath, in_app_iff. now left.
Qed.

End ScannerMore.

Lemma collect_project_structure_complete_witness :
  exists c,
    collect_project_structure demo_parse demo_read demo_rglob (py ".")
      [py "tests"] = Ok c
    /\ (forall rel,
          In rel (demo_rglob (Path_of_str (py "."))) ->
          excluded [py "tests"] (joinpath (Path_of_str (py ".")) rel) = false ->
          exists ex p,
            catalog_entry c (str_of_Path (parent (mkPath [] rel)))
              (name (joinpath (Path_of_str (py ".")) rel)) ex p).
Proof.
  apply (collect_project_structure_complete demo_parse demo_read demo_rglob
           (py ".") [py "tests"]).
  intros rel [<-|[<-|[<-|[]]]] Hex;
    try (vm_compute in Hex; discriminate Hex);
    exists (py "pass"), scenario_A; split; reflexivity.
Defined.

Lemma collect_project_structure_root_excluded_witness :
  collect_project_structure demo_parse demo_read demo_rglob_bad
    (py "/home/tests/proj") [py "tests"] = Ok [].
Proof.
  apply (collect_project_structure_root_excluded demo_parse demo_read
           demo_rglob_bad (py "/home/tests/proj") [py "tests"] (py "tests")).
  - right. right. left. reflexivity.
  - left. reflexivity.
Defined.



(* ===================================================================== *)
(** * Keys of the widgets: further properties *)
(* ===================================================================== *)

Section SafeKeyMore.
Variable uuid4_hex8 : nat -> pystr.

(** The key tried after the draw number [i]. *)
Let candidate (base : pystr) (i : nat) : pystr :=
  base ++ py "_" ++ uuid4_hex8 i.

Lemma safe_key_loop_shape (fuel : nat) (base : pystr) :
  forall (key : pystr) (st : key_state) (k : pystr) (st' : key_state),
    safe_key_loop uuid4_hex8 fuel base key st = Some (k, st') ->
    (k = key /\ uuid_calls st' = uuid_calls st /\ (key ∉ used_keys st))
    \/ ((key ∈ used_keys st)
        /\ uuid_calls st < uuid_calls st'
        /\ k = candidate base (uuid_calls st' - 1)).
Proof.
  induction fuel as [|fuel IH]; intros key st k st' H; [discriminate|].
  cbn [safe_key_loop] in H. case_bool_decide as Hin.
  - right. split; [exact Hin|]. apply IH in H. cbn [uuid_calls used_keys] in H.
    destruct H as [(-> & Hc & _)|(_ & Hc & ->)].
    + rewrite Hc. split; [lia|]. unfold candidate. do 3 f_equal. lia.
    + split; [lia | reflexivity].
  - injection H as <- <-. left. auto.
Qed.

(** X12: the key returned is the base itself, without any draw, when
    the base is not in the registry; otherwise it is the base, an
    underscore and the last suffix drawn. *)
Theorem make_safe_key_shape (fuel : nat) (args : list pystr)
    (st st' : key_state) (k : pystr) :
  make_safe_key uuid4_hex8 fuel args st = Some (k, st') ->
  (k = safe_key_base args
   /\ uuid_calls st' = uuid_calls st
   /\ (safe_key_base args ∉ used_keys st))
  \/ ((safe_key_base args ∈ used_keys st)
      /\ uuid_calls st < uuid_calls st'
      /\ k = safe_key_base args ++ py "_"
               ++ uuid4_hex8 (uuid_calls st' - 1)).
Proof. unfold make_safe_key. apply safe_key_loop_shape. Qed.

Lemma make_safe_key_registers_base (fuel : nat) (args : list pystr)
    (st st' : key_state) (k : pystr) :
  make_safe_key uuid4_hex8 fuel args st = Some (k, st') ->
  safe_key_base args ∈ used_keys st'.
Proof.
  intros H. pose proof (safe_key_loop_fresh uuid4_hex8 _ _ _ _ _ _ H)
    as [_ Hu].
  unfold make_safe_key in H.
  apply safe_key_loop_shape in H as [(-> & _ & _)|(Hin & _ & _)];
    rewrite Hu; set_solver.
Qed.

(** X13: a second call with the same arguments, at any later time in
    the process, never gives the key of the first call, nor the base:
    it gives the base followed by a drawn suffix. *)
Theorem make_safe_key_not_stable (fuel1 fuel2 : nat) (args : list pystr)
    (st st1 st2 : key_state) (k1 k2 : pystr) :
  make_safe_key uuid4_hex8 fuel1 args st = Some (k1, st1) ->
  used_keys st1 ⊆ used_keys st2 ->
  forall st3,
    make_safe_key uuid4_hex8 fuel2 args st2 = Some (k2, st3) ->
    k2 <> k1
    /\ k2 = safe_key_base args ++ py "_" ++ uuid4_hex8 (uuid_calls st3 - 1).
Proof.
  intros H1 Hsub st3 H2.
  pose proof (make_safe_key_registers_base _ _ _ _ _ H1) as Hbase.
  pose proof (safe_key_loop_fresh uuid4_hex8 _ _ _ _ _ _ H1) as [_ Hu1].
  pose proof (safe_key_loop_fresh uuid4_hex8 _ _ _ _ _ _ H2) as [Hk2 _].
  split.
  - intros ->. apply Hk2. apply Hsub. rewrite Hu1. set_solver.
  - unfold make_safe_key in H2.
    apply safe_key_loop_shape in H2 as [(_ & _ & Hn)|(_ & _ & ->)];
      [|reflexivity].
    exfalso. apply Hn, Hsub, Hbase.
Qed.

Lemma safe_key_loop_first_fresh (base : pystr) (n : nat) :
  forall (fuel : nat) (key : pystr) (st : key_state),
    n + 2 <= fuel ->
    key ∈ used_keys st ->
    (forall j, j < n -> candidate base (uuid_calls st + j) ∈ used_keys st) ->
    candidate base (uuid_calls st + n) ∉ used_keys st ->
    safe_key_loop uuid4_hex8 fuel base key st
    = Some (candidate base (uuid_calls st + n),
            mkKeyState
              ({[candidate base (uuid_calls st + n)]} ∪ used_keys st)
              (uuid_calls st + n + 1)).
Proof.
  induction n as [|n IH]; intros fuel key st Hfuel Hkey Hused Hfresh.
  - destruct fuel as [|[|fuel]]; [lia | lia |].
    cbn [safe_key_loop]. rewrite bool_decide_eq_true_2 by exact Hkey.
    cbn [used_keys uuid_calls]. rewrite Nat.add_0_r in *.
    fold (candidate base (uuid_calls st)).
    rewrite bool_decide_eq_false_2 by exact Hfresh.
    do 3 f_equal; lia.
  - destruct fuel as [|fuel]; [lia|].
    cbn [safe_key_loop]. rewrite bool_decide_eq_true_2 by exact Hkey.
    fold (candidate base (uuid_calls st)).
    rewrite (IH fuel); cbn [used_keys uuid_calls].
    + replace (S (uuid_calls st) + n) with (uuid_calls st + S n) by lia.
      do 3 f_equal; lia.
    + lia.
    + specialize (Hused 0). rewrite Nat.add_0_r in Hused. apply Hused. lia.
    + intros j Hj.
      replace (S (uuid_calls st) + j) with (uuid_calls st + S j) by lia.
      apply Hused. lia.
    + now replace (S (uuid_calls st) + n) with (uuid_calls st + S n) by lia.
Qed.

(** X14: when the base is in the registry, the call returns the first
    drawn suffix that gives a key outside the registry, given fuel for
    the draws before it; the suffixes before it are used up, and the
    registry receives that key only. *)
Theorem make_safe_key_first_fresh (fuel : nat) (args : list pystr)
    (st : key_state) (n : nat) :
  n + 2 <= fuel ->
  safe_key_base args ∈ used_keys st ->
  (forall j,
     j < n ->
     safe_key_base args ++ py "_" ++ uuid4_hex8 (uuid_calls st + j)
       ∈ used_keys st) ->
  safe_key_base args ++ py "_" ++ uuid4_hex8 (uuid_calls st + n)
    ∉ used_keys st ->
  make_safe_key uuid4_hex8 fuel args st
  = Some (safe_key_base args ++ py "_" ++ uuid4_hex8 (uuid_calls st + n),
          mkKeyState
            ({[safe_key_base args ++ py "_"
                 ++ uuid4_hex8 (uuid_calls st + n)]} ∪ used_keys st)
            (uuid_calls st + n + 1)).
Proof.
  intros. unfold make_safe_key.
  now apply (safe_key_loop_first_fresh (safe_key_base args) n).
Qed.

End SafeKeyMore.

Lemma normalize_arg_app (a b : pystr) :
  normalize_arg (a ++ b) = normalize_arg a ++ normalize_arg b.
Proof. unfold normalize_arg, replace_char. now rewrite !List.map_app. Qed.

Lemma normalize_arg_idem (a : pystr) :
  normalize_arg (normalize_arg a) = normalize_arg a.
Proof.
  unfold normalize_arg, replace_char. rewrite !List.map_map.
  apply List.map_ext. intros c. unfold slash.
  destruct (c =? 47)%N eqn:E1; cbn; [reflexivity|].
  destruct (c =? 32)%N eqn:E2; cbn; [reflexivity|].
  now rewrite E1, E2.
Qed.

Lemma safe_key_base_eq (args : list pystr) :
  safe_key_base args = py "memo_" ++ join (py "_") (List.map normalize_arg args).
Proof. reflexivity. Qed.

(** X15: the base of a key does not tell apart arguments that differ
    only by ['/'], [' '] and ['_'], nor two arguments from their join
    with an underscore. *)
Theorem safe_key_base_collisions (a b : pystr) (rest : list pystr) :
  safe_key_base (a :: b :: rest) = safe_key_base ((a ++ py "_" ++ b) :: rest)
  /\ safe_key_base (normalize_arg a :: rest) = safe_key_base (a :: rest).
Proof.
  rewrite !safe_key_base_eq. cbn [List.map]. split.
  - rewrite !normalize_arg_app. f_equal.
    change (normalize_arg (py "_")) with (py "_").
    destruct rest as [|c rest]; cbn [List.map join];
      rewrite <- ?List.app_assoc; reflexivity.
  - now rewrite normalize_arg_idem.
Qed.

Lemma make_safe_key_shape_witness :
  exists k st',
    make_safe_key demo_uuid 4 [py "/proj/a b.py"; py "file"]
      (mkKeyState {[py "memo__proj_a_b.py_file"]} 0) = Some (k, st')
    /\ ((k = safe_key_base [py "/proj/a b.py"; py "file"]
         /\ uuid_calls st' = 0
         /\ (safe_key_base [py "/proj/a b.py"; py "file"]
               ∉ ({[py "memo__proj_a_b.py_file"]} : gset pystr)))
        \/ ((safe_key_base [py "/proj/a b.py"; py "file"]
               ∈ ({[py "memo__proj_a_b.py_file"]} : gset pystr))
            /\ 0 < uuid_calls st'
            /\ k = safe_key_base [py "/proj/a b.py"; py "file"] ++ py "_"
                     ++ demo_uuid (uuid_calls st' - 1))).
Proof.
  destruct (make_safe_key demo_uuid 4 [py "/proj/a b.py"; py "file"]
              (mkKeyState {[py "memo__proj_a_b.py_file"]} 0))
    as [[k st']|] eqn:E.
  - exists k, st'. split; [reflexivity|].
    exact (make_safe_key_shape demo_uuid 4 _ _ st' k E).
  - vm_compute in E. discriminate E.
Defined.

Lemma make_safe_key_not_stable_witness :
  exists k1 st1 k2 st3,
    make_safe_key demo_uuid 4 [py "a.py"; py "file"] (mkKeyState ∅ 0)
    = Some (k1, st1)
    /\ make_safe_key demo_uuid 4 [py "a.py"; py "file"] st1 = Some (k2, st3)
    /\ k2 <> k1
    /\ k2 = safe_key_base [py "a.py"; py "file"] ++ py "_"
              ++ demo_uuid (uuid_calls st3 - 1).
Proof.
  destruct (make_safe_key demo_uuid 4 [py "a.py"; py "file"]
              (mkKeyState ∅ 0)) as [[k1 st1]|] eqn:E1;
    [|vm_compute in E1; discriminate E1].
  destruct (make_safe_key demo_uuid 4 [py "a.py"; py "file"] st1)
    as [[k2 st3]|] eqn:E2.
  - exists k1, st1, k2, st3. split; [reflexivity|]. split; [exact E2|].
    exact (make_safe_key_not_stable demo_uuid 4 4 _ _ st1 st1 k1 k2 E1
             (reflexivity _) st3 E2).
  - exfalso. vm_compute in E1. injection E1 as <- <-.
    vm_compute in E2. discriminate E2.
Defined.

Lemma make_safe_key_first_fresh_witness :
  let st := mkKeyState ({[py "memo_a"]} ∪ {[py "memo_a_a"]}) 0 in
  make_safe_key demo_uuid 4 [py "a"] st
  = Some (safe_key_base [py "a"] ++ py "_" ++ demo_uuid (uuid_calls st + 2),
          mkKeyState
            ({[safe_key_base [py "a"] ++ py "_"
                 ++ demo_uuid (uuid_calls st + 2)]} ∪ used_keys st)
            (uuid_calls st + 2 + 1)).
Proof.
  intros st. apply (make_safe_key_first_fresh demo_uuid 4 [py "a"] st 2).
  - cbn. lia.
  - apply elem_of_union. left. apply elem_of_singleton. reflexivity.
  - intros j Hj. apply elem_of_union. right. apply elem_of_singleton.
    destruct j as [|[|j]]; [reflexivity | reflexivity | cbn in Hj; lia].
  - intros H. apply elem_of_union in H as [H|H];
      apply elem_of_singleton in H; vm_compute in H; discriminate H.
Defined.

(* ===================================================================== *)
(** * Structure extractor: further properties *)
(* ===================================================================== *)

Lemma visit_members_invariant (c : pystr) (body : list stmt) :
  forall d : dict (list pystr),
    List.NoDup (dict_keys d) ->
    (forall k ms, In (k, ms) d -> ms <> []) ->
    List.NoDup (dict_keys (fold_left (visit_member c) body d))
    /\ (forall k ms,
          In (k, ms) (fold_left (visit_member c) body d) -> ms <> []).
Proof.
  induction body as [|s body IH]; intros d Hnd Hne; [auto|].
  cbn [fold_left]. apply IH.
  - destruct s; cbn [visit_member]; auto using dict_keys_NoDup_set.
  - destruct s; cbn [visit_member]; auto.
    intros k ms Hin. apply dict_set_In in Hin as [[_ ->]|Hin]; [|eauto].
    now destruct (dict_get_default d c []).
Qed.

(** X16: in the result of the extractor every class name has one entry,
    and the list of every entry holds at least one method: a class
    without any plain [def] in its body is not listed. *)
Theorem extract_structure_classes_invariant (tree : list stmt) :
  List.NoDup (dict_keys (st_classes (extract_structure_ast tree)))
  /\ (forall c ms,
        In (c, ms) (st_classes (extract_structure_ast tree)) ->
        ms <> [] /\ ms = methods_named c tree).
Proof.
  unfold extract_structure_ast.
  assert (G : forall t acc,
             List.NoDup (dict_keys (st_classes acc)) ->
             (forall k ms, In (k, ms) (st_classes acc) -> ms <> []) ->
             List.NoDup (dict_keys (st_classes (fold_left visit_node t acc)))
             /\ (forall k ms,
                   In (k, ms) (st_classes (fold_left visit_node t acc)) ->
                   ms <> [])).
  { induction t as [|node t IH]; intros acc Hnd Hne; [auto|].
    cbn [fold_left]. apply IH.
    - destruct node; cbn [visit_node st_classes]; auto.
      now apply visit_members_invariant.
    - destruct node; cbn [visit_node st_classes]; auto.
      now apply visit_members_invariant. }
  destruct (G tree (mkStructure [] [])) as [Hnd Hne].
  - constructor.
  - intros k ms [].
  - split; [exact Hnd|]. intros c ms Hin. split; [eauto|].
    apply (dict_get_of_In _ _ _ Hnd) in Hin.
    destruct (visit_nodes_spec tree (mkStructure [] [])) as [_ Hc].
    rewrite Hc in Hin. cbn in Hin.
    destruct (methods_named c tree); [discriminate | congruence].
Qed.

(* ===================================================================== *)
(** * The list of excluded folders *)
(* ===================================================================== *)

Lemma lstrip_space_prefix (ws s : pystr) :
  forallb isspace ws = true -> lstrip (ws ++ s) = lstrip s.
Proof.
  induction ws as [|c ws IH]; [reflexivity|].
  cbn [forallb app lstrip]. intros H. apply andb_true_iff in H as [-> H].
  auto.
Qed.

Lemma strip_space_prefix (ws s : pystr) :
  forallb isspace ws = true -> strip (ws ++ s) = strip s.
Proof. intros H. unfold strip. now rewrite lstrip_space_prefix. Qed.

Lemma split_char_aux_app (sep : N) (s acc rest : pystr) :
  ~ In sep s ->
  split_char_aux sep acc (s ++ sep :: rest)
  = (rev acc ++ s) :: split_char_aux sep [] rest.
Proof.
  revert acc. induction s as [|c s IH]; intros acc Hn.
  - cbn. now rewrite N.eqb_refl, app_nil_r.
  - cbn [app split_char_aux].
    destruct (c =? sep)%N eqn:E.
    + apply N.eqb_eq in E. subst c. exfalso. apply Hn. now left.
    + rewrite IH by (intros H; apply Hn; now right).
      cbn [rev]. now rewrite <- List.app_assoc.
Qed.

Lemma split_char_aux_last (sep : N) (s acc : pystr) :
  ~ In sep s -> split_char_aux sep acc s = [rev acc ++ s].
Proof.
  revert acc. induction s as [|c s IH]; intros acc Hn.
  - cbn. now rewrite app_nil_r.
  - cbn [split_char_aux]. destruct (c =? sep)%N eqn:E.
    + apply N.eqb_eq in E. subst c. exfalso. apply Hn. now left.
    + rewrite IH by (intros H; apply Hn; now right).
      cbn [rev]. now rewrite <- List.app_assoc.
Qed.

Lemma parse_exclude_input_joined (names : list pystr) :
  names <> [] ->
  (forall n, In n names -> ~ In comma n /\ strip n = n) ->
  forall ws,
    forallb isspace ws = true -> ~ In comma ws ->
    parse_exclude_input (ws ++ join (py ", ") names) = names.
Proof.
  unfold parse_exclude_input, split_char.
  induction names as [|n names IH]; intros Hne Hok ws Hws Hc; [contradiction|].
  destruct (Hok n (or_introl eq_refl)) as [Hn Hs].
  destruct names as [|m names].
  - cbn [join]. rewrite split_char_aux_last.
    + cbn [List.map rev app]. now rewrite strip_space_prefix, Hs.
    + rewrite in_app_iff. tauto.
  - change (join (py ", ") (n :: m :: names))
      with (n ++ comma :: [32%N] ++ join (py ", ") (m :: names)).
    rewrite List.app_assoc, split_char_aux_app
      by (rewrite in_app_iff; tauto).
    cbn [List.map rev app]. rewrite strip_space_prefix, Hs by exact Hws.
    f_equal. apply (IH ltac:(discriminate)
                       (fun x Hx => Hok x (or_intror Hx)) [32%N]).
    + reflexivity.
    + intros [H|[]]. discriminate H.
Qed.

(** X17: the names of a list that is not empty, written one after the
    other with [", "] between them, are read back as they are, when no
    name contains a comma and no name begins or ends with white space.
    (The empty list is written as the empty input, which is read back
    as the one name [""].) *)
Theorem parse_exclude_input_round_trip (names : list pystr) :
  names <> [] ->
  (forall n, In n names -> ~ In comma n /\ strip n = n) ->
  parse_exclude_input (join (py ", ") names) = names.
Proof.
  intros Hne Hok.
  apply (parse_exclude_input_joined names Hne Hok []); [reflexivity|].
  intros [].
Qed.

Lemma parse_exclude_input_round_trip_witness :
  parse_exclude_input (join (py ", ") [py "__pycache__"; py ".venv"; py "my tests"])
  = [py "__pycache__"; py ".venv"; py "my tests"].
Proof.
  apply (parse_exclude_input_round_trip
           [py "__pycache__"; py ".venv"; py "my tests"]).
  - discriminate.
  - intros n [<-|[<-|[<-|[]]]]; (split; [|reflexivity]);
      vm_compute; intuition discriminate.
Defined.

(* ===================================================================== *)
(** * The page: properties *)
(* ===================================================================== *)

Section FoldRun.
Context {A S : Type}.
Variable f : S -> A -> run S.

Lemma fold_run_inv (P : S -> Prop) (l : list A) :
  (forall s a s1, In a l -> P s -> f s a = Returns s1 -> P s1) ->
  forall s s', P s -> fold_run f l s = Returns s' -> P s'.
Proof.
  induction l as [|a l IH]; intros Hstep s s' Hs H.
  - cbn in H. now injection H as <-.
  - cbn [fold_run] in H.
    destruct (f s a) as [s1|e1|] eqn:E; [|discriminate|discriminate].
    apply (IH (fun s0 a0 s2 Hin => Hstep s0 a0 s2 (or_intror Hin)) s1 s');
      [|exact H].
    apply (Hstep s a s1); auto. now left.
Qed.

(** A property that every turn keeps and the turn of [a0] brings
    about holds at the end. *)
Lemma fold_run_reach (P : S -> Prop) (l : list A) (a0 : A) :
  (forall s a s1, In a l -> P s -> f s a = Returns s1 -> P s1) ->
  In a0 l ->
  (forall s s1, f s a0 = Returns s1 -> P s1) ->
  forall s s', fold_run f l s = Returns s' -> P s'.
Proof.
  induction l as [|a l IH]; intros Hkeep Hin Hmake s s' H; [destruct Hin|].
  cbn [fold_run] in H.
  destruct (f s a) as [s1|e1|] eqn:E; [|discriminate|discriminate].
  destruct Hin as [->|Hin].
  - apply (fold_run_inv P l
             (fun s0 a1 s2 Hin => Hkeep s0 a1 s2 (or_intror Hin)) s1 s');
      [|exact H].
    now apply (Hmake s).
  - apply (IH (fun s0 a1 s2 Hi => Hkeep s0 a1 s2 (or_intror Hi)) Hin Hmake
             s1 s' H).
Qed.

(** A measure that the turn of [a] raises by [cnt a]. *)
Lemma fold_run_count (m : S -> nat) (cnt : A -> nat) (l : list A) :
  (forall s a s1, In a l -> f s a = Returns s1 -> m s1 = m s + cnt a) ->
  forall s s',
    fold_run f l s = Returns s' ->
    m s' = m s + list_sum (List.map cnt l).
Proof.
  induction l as [|a l IH]; intros Hstep s s' H.
  - cbn in H. injection H as <-. cbn. lia.
  - cbn [fold_run] in H.
    destruct (f s a) as [s1|e1|] eqn:E; [|discriminate|discriminate].
    rewrite (IH (fun s0 a0 s2 Hin => Hstep s0 a0 s2 (or_intror Hin)) s1 s' H).
    rewrite (Hstep s a s1 (or_introl eq_refl) E).
    change (list_sum (List.map cnt (a :: l)))
      with (cnt a + list_sum (List.map cnt l)).
    lia.
Qed.

(** An exception that leaves the loop left one of its turns. *)
Lemma fold_run_raises (R : Prop) (e : error) (l : list A) :
  (forall s a, In a l -> f s a = Raises e -> R) ->
  forall s, fold_run f l s = Raises e -> R.
Proof.
  induction l as [|a l IH]; intros Hstep s H; [discriminate|].
  cbn [fold_run] in H.
  destruct (f s a) as [s1|e1|] eqn:E; [| |discriminate].
  - apply (IH (fun s0 a0 Hin => Hstep s0 a0 (or_intror Hin)) s1 H).
  - apply (Hstep s a (or_introl eq_refl)). congruence.
Qed.

End FoldRun.

Lemma list_sum_insert_sorted {V} (g : pystr * V -> nat) (x : pystr * V)
    (l : list (pystr * V)) :
  list_sum (List.map g (insert_sorted x l)) = g x + list_sum (List.map g l).
Proof.
  induction l as [|y l IH]; [reflexivity|]. cbn [insert_sorted].
  destruct (str_le (fst x) (fst y)); [reflexivity|].
  change (list_sum (List.map g (y :: insert_sorted x l)))
    with (g y + list_sum (List.map g (insert_sorted x l))).
  change (list_sum (List.map g (y :: l)))
    with (g y + list_sum (List.map g l)).
  rewrite IH. lia.
Qed.

Lemma list_sum_sorted_items {V} (g : pystr * V -> nat)
    (l : list (pystr * V)) :
  list_sum (List.map g (sorted_items l)) = list_sum (List.map g l).
Proof.
  induction l as [|x l IH]; [reflexivity|]. cbn [sorted_items].
  rewrite list_sum_insert_sorted, IH. reflexivity.
Qed.

Lemma make_unique_key_Err (resolve_str : Path -> pystr) (file_path : Path)
    (kind name : pystr) (par : option pystr) (e : error) :
  make_unique_key resolve_str file_path kind name par = Err e ->
  e = EncodeError.
Proof.
  unfold make_unique_key. destruct (encodable _); [discriminate|].
  now intros [= <-].
Qed.

Section MainFacts.
Variable resolve_str : Path -> pystr.
Variable uuid4_hex8 : nat -> pystr.
Variable widget_text : pystr -> pystr.
Variable fuel : nat.

Let widget := memo_widget uuid4_hex8 widget_text fuel.
Let in_class := class_widgets resolve_str uuid4_hex8 widget_text fuel.
Let in_file := file_widgets resolve_str uuid4_hex8 widget_text fuel.

Lemma memo_widget_Returns (ui_args : list pystr) (unique_key : result pystr)
    (s s1 : key_state * dict pystr) :
  widget ui_args unique_key s = Returns s1 ->
  exists ui_key key,
    make_safe_key uuid4_hex8 fuel ui_args (fst s) = Some (ui_key, fst s1)
    /\ unique_key = Ok key
    /\ snd s1 = dict_set (snd s) key (widget_text ui_key).
Proof.
  unfold widget, memo_widget.
  destruct (make_safe_key _ _ _ _) as [[ui st']|]; [|discriminate].
  destruct unique_key as [key|e]; [|discriminate].
  intros [= <-]. exists ui, key. auto.
Qed.

Lemma memo_widget_Raises (ui_args : list pystr) (unique_key : result pystr)
    (s : key_state * dict pystr) (e : error) :
  widget ui_args unique_key s = Raises e -> unique_key = Err e.
Proof.
  unfold widget, memo_widget.
  destruct (make_safe_key _ _ _ _) as [[ui st']|]; [|discriminate].
  destruct unique_key as [key|e0]; [discriminate|]. now intros [= <-].
Qed.

Section Invariant.
Variable Q : pystr -> pystr -> Prop.

Lemma memo_widget_inv (ui_args : list pystr) (unique_key : result pystr)
    (s s1 : key_state * dict pystr) :
  (forall key ui, unique_key = Ok key -> Q key (widget_text ui)) ->
  memo_inv Q s -> widget ui_args unique_key s = Returns s1 -> memo_inv Q s1.
Proof.
  intros HQ Hs H. apply memo_widget_Returns in H as (ui & key & _ & Hk & Hd).
  intros k t Hin. rewrite Hd in Hin.
  apply dict_set_In in Hin as [[-> ->]|Hin]; [now apply HQ | now apply Hs].
Qed.

Lemma class_widgets_inv (py_file_path : Path) (file : pystr)
    (content : structure) (cm : pystr * list pystr)
    (s s1 : key_state * dict pystr) :
  (forall kind nm par key ui,
     declares file content kind nm par ->
     make_unique_key resolve_str py_file_path kind nm par = Ok key ->
     Q key (widget_text ui)) ->
  In cm (st_classes content) ->
  memo_inv Q s -> in_class py_file_path s cm = Returns s1 -> memo_inv Q s1.
Proof.
  intros HQ Hcm Hs H. unfold in_class, class_widgets in H.
  destruct cm as [cls ms]. cbn [fst snd] in H.
  fold widget in H.
  destruct (widget _ _ s) as [s0|e0|] eqn:E0; [|discriminate|discriminate].
  eapply (fold_run_inv _ (memo_inv Q)); [| |exact H].
  - intros s2 method s3 Hin Hs2 Hw. fold widget in Hw.
    refine (memo_widget_inv _ _ s2 s3 _ Hs2 Hw).
    intros key ui Hk. refine (HQ _ _ _ key ui _ Hk).
    right. right. right. split; [reflexivity|].
    exists cls, ms. auto.
  - refine (memo_widget_inv _ _ s s0 _ Hs E0).
    intros key ui Hk. refine (HQ _ _ _ key ui _ Hk).
    right. right. left. split; [reflexivity|].
    split; [|reflexivity]. now exists ms.
Qed.

Lemma file_widgets_inv (file : pystr) (content : structure)
    (py_file_path : Path) (s s1 : key_state * dict pystr) :
  (forall kind nm par key ui,
     declares file content kind nm par ->
     make_unique_key resolve_str py_file_path kind nm par = Ok key ->
     Q key (widget_text ui)) ->
  memo_inv Q s ->
  in_file s (file, (content, py_file_path)) = Returns s1 -> memo_inv Q s1.
Proof.
  intros HQ Hs H. unfold in_file, file_widgets in H. cbn [fst snd] in H.
  fold widget in H.
  destruct (widget _ _ s) as [s0|e0|] eqn:E0; [|discriminate|discriminate].
  destruct (fold_run _ (st_functions content) s0) as [s2|e2|] eqn:E1;
    [|discriminate|discriminate].
  assert (H0 : memo_inv Q s0).
  { refine (memo_widget_inv _ _ s s0 _ Hs E0).
    intros key ui Hk. refine (HQ _ _ _ key ui _ Hk). left. auto. }
  assert (H2 : memo_inv Q s2).
  { eapply (fold_run_inv _ (memo_inv Q)); [|exact H0|exact E1].
    intros sa fn sb Hin Hsa Hw. fold widget in Hw.
    refine (memo_widget_inv _ _ sa sb _ Hsa Hw).
    intros key ui Hk. refine (HQ _ _ _ key ui _ Hk). right. left. auto. }
  eapply (fold_run_inv _ (memo_inv Q)); [|exact H2|exact H].
  intros sa cm sb Hin Hsa Hw.
  exact (class_widgets_inv py_file_path file content cm sa sb HQ Hin Hsa Hw).
Qed.

(** What holds of the memo of every declaration of the catalog holds of
    every pair of [memo_data]. *)
Lemma collect_memos_inv (scanned : catalog) (st st' : key_state)
    (memo_data : dict pystr) :
  (forall folder file content py_file_path kind nm par key ui,
     catalog_entry scanned folder file content py_file_path ->
     declares file content kind nm par ->
     make_unique_key resolve_str py_file_path kind nm par = Ok key ->
     Q key (widget_text ui)) ->
  collect_memos resolve_str uuid4_hex8 widget_text fuel scanned st
  = Returns (st', memo_data) ->
  forall k t, In (k, t) memo_data -> Q k t.
Proof.
  intros HQ H. unfold collect_memos in H. fold in_file in H.
  change (memo_inv Q (st', memo_data)).
  eapply (fold_run_inv _ (memo_inv Q)); [| |exact H].
  - intros s [folder files] s1 Hff Hs Hfold. cbn [snd] in Hfold.
    apply (proj1 (sorted_items_In _ _)) in Hff.
    eapply (fold_run_inv _ (memo_inv Q)); [|exact Hs|exact Hfold].
    intros sa [file [content pyf]] sb Hin Hsa Hw.
    apply (proj1 (sorted_items_In _ _)) in Hin.
    refine (file_widgets_inv file content pyf sa sb _ Hsa Hw).
    intros kind nm par key ui Hd Hk.
    apply (HQ folder file content pyf kind nm par key ui); auto.
    exists files. auto.
  - intros k t [].
Qed.

End Invariant.

(** X18: every pair of the [memo_data] that [main] builds has the
    canonical key of a declaration of the catalog (a file, one of its
    functions, one of its classes, or a method of one of its classes) and
    the text of a widget. *)
Theorem collect_memos_sound (scanned : catalog) (st st' : key_state)
    (memo_data : dict pystr) (k t : pystr) :
  collect_memos resolve_str uuid4_hex8 widget_text fuel scanned st
  = Returns (st', memo_data) ->
  In (k, t) memo_data ->
  exists folder file content py_file_path kind nm par ui,
    catalog_entry scanned folder file content py_file_path
    /\ declares file content kind nm par
    /\ make_unique_key resolve_str py_file_path kind nm par = Ok k
    /\ t = widget_text ui.
Proof.
  intros H. revert k t.
  apply (collect_memos_inv
           (fun k t =>
              exists folder file content py_file_path kind nm par ui,
                catalog_entry scanned folder file content py_file_path
                /\ declares file content kind nm par
                /\ make_unique_key resolve_str py_file_path kind nm par
                   = Ok k
                /\ t = widget_text ui)
           scanned st st' memo_data); [|exact H].
  intros folder file content pyf kind nm par key ui He Hd Hk.
  exists folder, file, content, pyf, kind, nm, par, ui. auto.
Qed.

(** The state holds the key that [uk] gives. *)
Let holds (uk : result pystr) (x : key_state * dict pystr) : Prop :=
  exists key, uk = Ok key /\ In key (dict_keys (snd x)).

Lemma memo_widget_keeps_key (uk : result pystr) (ui_args : list pystr)
    (unique_key : result pystr) (s s1 : key_state * dict pystr) :
  holds uk s ->
  widget ui_args unique_key s = Returns s1 ->
  holds uk s1.
Proof.
  intros (key & Hu & Hk) H.
  apply memo_widget_Returns in H as (ui & k0 & _ & _ & Hd).
  exists key. split; [exact Hu|]. rewrite Hd. now apply dict_keys_set_old.
Qed.

Lemma memo_widget_writes_key (ui_args : list pystr)
    (unique_key : result pystr) (s s1 : key_state * dict pystr) :
  widget ui_args unique_key s = Returns s1 ->
  holds unique_key s1.
Proof.
  intros H. apply memo_widget_Returns in H as (ui & key & _ & Hu & Hd).
  exists key. split; [exact Hu|]. rewrite Hd. apply dict_keys_set_new.
Qed.

Lemma class_widgets_keeps_key (uk : result pystr) (py_file_path : Path)
    (cm : pystr * list pystr) (s s1 : key_state * dict pystr) :
  holds uk s ->
  in_class py_file_path s cm = Returns s1 ->
  holds uk s1.
Proof.
  intros Hk H. unfold in_class, class_widgets in H. fold widget in H.
  destruct (widget _ _ s) as [s0|e0|] eqn:E0; [|discriminate|discriminate].
  eapply (fold_run_inv _ (holds uk)); [| |exact H].
  - intros sa m sb _ Ha Hw. exact (memo_widget_keeps_key uk _ _ sa sb Ha Hw).
  - exact (memo_widget_keeps_key uk _ _ s s0 Hk E0).
Qed.

Lemma file_widgets_keeps_key (uk : result pystr)
    (item : pystr * (structure * Path)) (s s1 : key_state * dict pystr) :
  holds uk s ->
  in_file s item = Returns s1 ->
  holds uk s1.
Proof.
  intros Hk H. unfold in_file, file_widgets in H. fold widget in H.
  destruct (widget _ _ s) as [s0|e0|] eqn:E0; [|discriminate|discriminate].
  destruct (fold_run _ (st_functions (fst (snd item))) s0) as [s2|e2|] eqn:E1;
    [|discriminate|discriminate].
  eapply (fold_run_inv _ (holds uk)); [| |exact H].
  - intros sa cm sb _ Ha Hw.
    exact (class_widgets_keeps_key uk _ cm sa sb Ha Hw).
  - eapply (fold_run_inv _ (holds uk)); [| |exact E1].
    + intros sa fn sb _ Ha Hw.
      exact (memo_widget_keeps_key uk _ _ sa sb Ha Hw).
    + exact (memo_widget_keeps_key uk _ _ s s0 Hk E0).
Qed.

Lemma file_widgets_writes_key (file : pystr) (content : structure)
    (py_file_path : Path) (kind nm : pystr) (par : option pystr)
    (s s1 : key_state * dict pystr) :
  declares file content kind nm par ->
  in_file s (file, (content, py_file_path)) = Returns s1 ->
  holds (make_unique_key resolve_str py_file_path kind nm par) s1.
Proof.
  intros Hd H. unfold in_file, file_widgets in H. cbn [fst snd] in H.
  fold widget in H.
  destruct (widget _ _ s) as [s0|e0|] eqn:E0; [|discriminate|discriminate].
  destruct (fold_run _ (st_functions content) s0) as [s2|e2|] eqn:E1;
    [|discriminate|discriminate].
  set (uk := make_unique_key resolve_str py_file_path kind nm par).
  assert (Hcls : forall sa sb,
            holds uk sa ->
            fold_run (class_widgets resolve_str uuid4_hex8 widget_text fuel
                        py_file_path) (st_classes content) sa = Returns sb ->
            holds uk sb).
  { intros sa sb Ha Hf.
    eapply (fold_run_inv _ (holds uk)); [|exact Ha|exact Hf].
    intros sc cm sd _ Hc Hw.
    exact (class_widgets_keeps_key uk _ cm sc sd Hc Hw). }
  assert (Hfun : forall sa sb,
            holds uk sa ->
            fold_run
              (fun s2 fn =>
                 memo_widget uuid4_hex8 widget_text fuel
                   [str_of_Path py_file_path; py "function"; fn]
                   (make_unique_key resolve_str py_file_path (py "function")
                      fn None) s2)
              (st_functions content) sa = Returns sb ->
            holds uk sb).
  { intros sa sb Ha Hf.
    eapply (fold_run_inv _ (holds uk)); [|exact Ha|exact Hf].
    intros sc fn sd _ Hc Hw.
    exact (memo_widget_keeps_key uk _ _ sc sd Hc Hw). }
  destruct Hd as [(Ek & En & Ep)|[(Ek & Hfn & Ep)|[(Ek & [ms Hms] & Ep)
                 |(Ek & cls & ms & Hms & Hm & Ep)]]];
    subst kind par.
  - subst nm. apply (Hcls s2 s1); [|exact H]. apply (Hfun s0 s2); [|exact E1].
    exact (memo_widget_writes_key _ _ s s0 E0).
  - apply (Hcls s2 s1); [|exact H].
    eapply (fold_run_reach _ (holds uk) _ nm); [|exact Hfn| |exact E1].
    + intros sc fn sd _ Hc Hw.
      exact (memo_widget_keeps_key uk _ _ sc sd Hc Hw).
    + intros sc sd Hw. exact (memo_widget_writes_key _ _ sc sd Hw).
  - eapply (fold_run_reach _ (holds uk) _ (nm, ms)); [|exact Hms| |exact H].
    + intros sc cm sd _ Hc Hw.
      exact (class_widgets_keeps_key uk _ cm sc sd Hc Hw).
    + intros sc sd Hw. unfold class_widgets in Hw. cbn [fst snd] in Hw.
      fold widget in Hw.
      destruct (widget _ _ sc) as [se|ee|] eqn:Ee;
        [|discriminate|discriminate].
      eapply (fold_run_inv _ (holds uk)); [| |exact Hw].
      * intros sf m sg _ Hf' Hw'.
        exact (memo_widget_keeps_key uk _ _ sf sg Hf' Hw').
      * exact (memo_widget_writes_key _ _ sc se Ee).
  - eapply (fold_run_reach _ (holds uk) _ (cls, ms)); [|exact Hms| |exact H].
    + intros sc cm sd _ Hc Hw.
      exact (class_widgets_keeps_key uk _ cm sc sd Hc Hw).
    + intros sc sd Hw. unfold class_widgets in Hw. cbn [fst snd] in Hw.
      fold widget in Hw.
      destruct (widget _ _ sc) as [se|ee|] eqn:Ee;
        [|discriminate|discriminate].
      eapply (fold_run_reach _ (holds uk) _ nm); [|exact Hm| |exact Hw].
      * intros sf m sg _ Hf' Hw'.
        exact (memo_widget_keeps_key uk _ _ sf sg Hf' Hw').
      * intros sf sg Hw'. exact (memo_widget_writes_key _ _ sf sg Hw').
Qed.

(** X19: when the loops of [main] come to their end, [memo_data] has
    the canonical key of every declaration of every file of the
    catalog. *)
Theorem collect_memos_complete (scanned : catalog) (st st' : key_state)
    (memo_data : dict pystr) (folder file : pystr) (content : structure)
    (py_file_path : Path) (kind nm : pystr) (par : option pystr) :
  collect_memos resolve_str uuid4_hex8 widget_text fuel scanned st
  = Returns (st', memo_data) ->
  catalog_entry scanned folder file content py_file_path ->
  declares file content kind nm par ->
  exists key,
    make_unique_key resolve_str py_file_path kind nm par = Ok key
    /\ In key (dict_keys memo_data).
Proof.
  intros H [files [Hff Hitem]] Hd. unfold collect_memos in H. fold in_file in H.
  set (uk := make_unique_key resolve_str py_file_path kind nm par).
  change (holds uk (st', memo_data)).
  assert (Hkeep : forall l sa sb,
            holds uk sa ->
            fold_run in_file l sa = Returns sb ->
            holds uk sb).
  { intros l sa sb Ha Hf.
    eapply (fold_run_inv _ (holds uk)); [|exact Ha|exact Hf].
    intros sc item sd _ Hc Hw.
    exact (file_widgets_keeps_key uk item sc sd Hc Hw). }
  eapply (fold_run_reach _ (holds uk) _ (folder, files)); [| | |exact H].
  - intros sa ff sb _ Ha Hf. exact (Hkeep _ sa sb Ha Hf).
  - now apply sorted_items_In.
  - intros sa sb Hf. cbn [snd] in Hf.
    eapply (fold_run_reach _ (holds uk) _ (file, (content, py_file_path)));
      [| | |exact Hf].
    + intros sc item sd _ Hc Hw.
      exact (file_widgets_keeps_key uk item sc sd Hc Hw).
    + now apply sorted_items_In.
    + intros sc sd Hw.
      exact (file_widgets_writes_key file content py_file_path kind nm par
               sc sd Hd Hw).
Qed.

Lemma list_sum_ones {A} (l : list A) :
  list_sum (List.map (fun _ => 1) l) = List.length l.
Proof. induction l as [|a l IH]; [reflexivity|]. cbn. f_equal. exact IH. Qed.

Lemma memo_widget_size (ui_args : list pystr) (unique_key : result pystr)
    (s s1 : key_state * dict pystr) :
  widget ui_args unique_key s = Returns s1 ->
  size (used_keys (fst s1)) = size (used_keys (fst s)) + 1.
Proof.
  intros H. apply memo_widget_Returns in H as (ui & key & Hk & _ & _).
  apply safe_key_loop_fresh in Hk as [Hn ->].
  rewrite size_union by set_solver. rewrite size_singleton. lia.
Qed.

Lemma class_widgets_size (py_file_path : Path) (cm : pystr * list pystr)
    (s s1 : key_state * dict pystr) :
  in_class py_file_path s cm = Returns s1 ->
  size (used_keys (fst s1))
  = size (used_keys (fst s)) + (1 + List.length (snd cm)).
Proof.
  intros H. unfold in_class, class_widgets in H. fold widget in H.
  destruct (widget _ _ s) as [s0|e0|] eqn:E0; [|discriminate|discriminate].
  apply memo_widget_size in E0.
  apply (fold_run_count _ (fun x => size (used_keys (fst x)))
           (fun _ => 1)) in H.
  - rewrite H, E0, list_sum_ones. lia.
  - intros sa m sb _ Hw. exact (memo_widget_size _ _ sa sb Hw).
Qed.

Lemma file_widgets_size (item : pystr * (structure * Path))
    (s s1 : key_state * dict pystr) :
  in_file s item = Returns s1 ->
  size (used_keys (fst s1))
  = size (used_keys (fst s)) + file_widget_count (fst (snd item)).
Proof.
  intros H. unfold in_file, file_widgets in H. fold widget in H.
  destruct (widget _ _ s) as [s0|e0|] eqn:E0; [|discriminate|discriminate].
  destruct (fold_run _ (st_functions (fst (snd item))) s0) as [s2|e2|] eqn:E1;
    [|discriminate|discriminate].
  apply memo_widget_size in E0.
  apply (fold_run_count _ (fun x => size (used_keys (fst x)))
           (fun _ => 1)) in E1;
    [|intros sa fn sb _ Hw; exact (memo_widget_size _ _ sa sb Hw)].
  apply (fold_run_count _ (fun x => size (used_keys (fst x)))
           (fun cm => 1 + List.length (snd cm))) in H;
    [|intros sa cm sb _ Hw; exact (class_widgets_size _ cm sa sb Hw)].
  rewrite H, E1, E0, list_sum_ones. unfold file_widget_count. lia.
Qed.

(** X20: when the loops of [main] come to their end, the registry has
    grown by one key for each widget of the page: no two widgets of a
    pass share a key, whatever the registry held before. *)
Theorem collect_memos_registry_size (scanned : catalog) (st st' : key_state)
    (memo_data : dict pystr) :
  collect_memos resolve_str uuid4_hex8 widget_text fuel scanned st
  = Returns (st', memo_data) ->
  size (used_keys st') = size (used_keys st) + widget_count scanned.
Proof.
  intros H. unfold collect_memos in H. fold in_file in H.
  apply (fold_run_count _ (fun x => size (used_keys (fst x)))
           (fun ff : pystr * dict (structure * Path) =>
              list_sum
                (List.map (fun item => file_widget_count (fst (snd item)))
                   (snd ff)))) in H.
  - cbn [fst] in H. rewrite H. unfold widget_count.
    now rewrite list_sum_sorted_items.
  - intros sa ff sb _ Hf.
    apply (fold_run_count _ (fun x => size (used_keys (fst x)))
             (fun item => file_widget_count (fst (snd item)))) in Hf.
    + now rewrite Hf, list_sum_sorted_items.
    + intros sc item sd _ Hw. exact (file_widgets_size item sc sd Hw).
Qed.

(** An exception that leaves the loops of [main] is the one of
    [make_unique_key]. *)
Lemma collect_memos_raises (scanned : catalog) (st : key_state) (e : error) :
  collect_memos resolve_str uuid4_hex8 widget_text fuel scanned st = Raises e ->
  e = EncodeError.
Proof.
  assert (Hw : forall a u s, widget a (make_unique_key resolve_str
                 (fst u) (fst (snd u)) (fst (snd (snd u))) (snd (snd (snd u))))
                 s = Raises e -> e = EncodeError).
  { intros a u s H. apply memo_widget_Raises in H.
    now apply make_unique_key_Err in H. }
  assert (Hc : forall pyf s cm, in_class pyf s cm = Raises e -> e = EncodeError).
  { intros pyf s cm H. unfold in_class, class_widgets in H. fold widget in H.
    destruct (widget _ _ s) as [s0|e0|] eqn:E0; [| |discriminate].
    - eapply (fold_run_raises _ (e = EncodeError) e); [|exact H].
      intros sa m _ Hm. fold widget in Hm.
      exact (Hw _ (pyf, (py "method", (m, Some (fst cm)))) sa Hm).
    - injection H as ->.
      exact (Hw _ (pyf, (py "class", (fst cm, None))) s E0). }
  assert (Hf : forall s item, in_file s item = Raises e -> e = EncodeError).
  { intros s item H. unfold in_file, file_widgets in H. fold widget in H.
    destruct (widget _ _ s) as [s0|e0|] eqn:E0; [| |discriminate].
    - destruct (fold_run _ (st_functions (fst (snd item))) s0)
        as [s2|e2|] eqn:E1; [| |discriminate].
      + eapply (fold_run_raises _ (e = EncodeError) e); [|exact H].
        intros sa cm _ Hm. exact (Hc _ sa cm Hm).
      + injection H as ->.
        eapply (fold_run_raises _ (e = EncodeError) e); [|exact E1].
        intros sa fn _ Hm. fold widget in Hm.
        exact (Hw _ (snd (snd item), (py "function", (fn, None))) sa Hm).
    - injection H as ->.
      exact (Hw _ (snd (snd item), (py "file", (fst item, None))) s E0). }
  intros H. unfold collect_memos in H. fold in_file in H.
  eapply (fold_run_raises _ (e = EncodeError) e); [|exact H].
  intros sa ff _ Hm. cbn beta in Hm.
  eapply (fold_run_raises _ (e = EncodeError) e); [|exact Hm].
  intros sb item _ Hi. exact (Hf sb item Hi).
Qed.

Variable ast_parse : pystr -> parsed.
Variable read_file : Path -> option pystr.
Variable rglob_py : Path -> list (list pystr).
Variable path_exists : Path -> bool.
Variable cwd : Path.

(** X21: while every widget of the page is blank, [main] never ends on
    a path outside the working directory, wherever the project lies:
    what it offers for download is the empty text, and an exception
    that leaves it is not the one of [relative_to]. *)
Theorem main_blank_page (project_dir exclude_input : pystr)
    (st : key_state) :
  (forall ui_key, forallb isspace (widget_text ui_key) = true) ->
  match
    main ast_parse read_file rglob_py resolve_str uuid4_hex8 path_exists cwd
      widget_text fuel project_dir exclude_input st
  with
  | Export report _ => report = []
  | Raised e => e <> PathError
  | MissingProject | OutOfFuel => True
  end.
Proof.
  intros Hblank. unfold main.
  destruct (negb (path_exists (Path_of_str project_dir))); [exact I|].
  destruct (collect_project_structure _ _ _ _ _) as [scanned|e] eqn:Ec.
  - destruct (collect_memos _ _ _ _ scanned st) as [[st' memo_data]|e|] eqn:Em;
      [| |exact I].
    + assert (Hall : forall k t, In (k, t) memo_data -> is_skipped k t).
      { intros k t Hin. left. revert k t Hin.
        apply (collect_memos_inv (fun _ t => forallb isspace t = true)
                 scanned st st' memo_data); [|exact Em].
        intros. apply Hblank. }
      unfold format_memo_data, build_tree.
      now rewrite (build_tree_skipped memo_data Hall).
    + apply collect_memos_raises in Em. subst e. discriminate.
  - destruct (scan_error_source ast_parse read_file rglob_py project_dir
                (parse_exclude_input exclude_input) e Ec)
      as (rel & _ & _ & Hx).
    apply extract_structure_error_kinds in Hx.
    destruct Hx as [-> | [-> | ->]]; discriminate.
Qed.

End MainFacts.

Lemma collect_memos_sound_witness :
  exists st' memo_data,
    collect_memos demo_resolve demo_uuid demo_widget 3 demo_catalog
      (mkKeyState ∅ 0) = Returns (st', memo_data)
    /\ In (py "memo_/proj/a.py::file::a.py", py "top") memo_data
    /\ exists folder file content py_file_path kind nm par ui,
         catalog_entry demo_catalog folder file content py_file_path
         /\ declares file content kind nm par
         /\ make_unique_key demo_resolve py_file_path kind nm par
            = Ok (py "memo_/proj/a.py::file::a.py")
         /\ py "top" = demo_widget ui.
Proof.
  destruct (collect_memos demo_resolve demo_uuid demo_widget 3 demo_catalog
              (mkKeyState ∅ 0)) as [[st' memo_data]|e|] eqn:E;
    [|vm_compute in E; discriminate E|vm_compute in E; discriminate E].
  assert (Hin : In (py "memo_/proj/a.py::file::a.py", py "top") memo_data).
  { pose proof E as E'. vm_compute in E'. injection E' as _ <-.
    left. reflexivity. }
  exists st', memo_data. split; [reflexivity|]. split; [exact Hin|].
  exact (collect_memos_sound demo_resolve demo_uuid demo_widget 3
           demo_catalog _ st' memo_data _ _ E Hin).
Defined.

Lemma collect_memos_complete_witness :
  exists st' memo_data,
    collect_memos demo_resolve demo_uuid demo_widget 3 demo_catalog
      (mkKeyState ∅ 0) = Returns (st', memo_data)
    /\ exists key,
         make_unique_key demo_resolve (mkPath [] [py "pkg"; py "b.py"])
           (py "method") (py "m") (Some (py "Bar")) = Ok key
         /\ In key (dict_keys memo_data).
Proof.
  destruct (collect_memos demo_resolve demo_uuid demo_widget 3 demo_catalog
              (mkKeyState ∅ 0)) as [[st' memo_data]|e|] eqn:E;
    [|vm_compute in E; discriminate E|vm_compute in E; discriminate E].
  exists st', memo_data. split; [reflexivity|].
  apply (collect_memos_complete demo_resolve demo_uuid demo_widget 3
           demo_catalog _ st' memo_data (py "pkg") (py "b.py")
           (mkStructure [(py "Bar", [py "m"])] [py "foo"])
           (mkPath [] [py "pkg"; py "b.py"]) (py "method") (py "m")
           (Some (py "Bar")) E demo_catalog_entry).
  right. right. right. split; [reflexivity|].
  exists (py "Bar"), [py "m"]. repeat split; left; reflexivity.
Defined.

Lemma collect_memos_registry_size_witness :
  exists st' memo_data,
    collect_memos demo_resolve demo_uuid demo_widget 3 demo_catalog
      (mkKeyState ∅ 0) = Returns (st', memo_data)
    /\ size (used_keys st') = size (∅ : gset pystr) + widget_count demo_catalog.
Proof.
  destruct (collect_memos demo_resolve demo_uuid demo_widget 3 demo_catalog
              (mkKeyState ∅ 0)) as [[st' memo_data]|e|] eqn:E;
    [|vm_compute in E; discriminate E|vm_compute in E; discriminate E].
  exists st', memo_data. split; [reflexivity|].
  exact (collect_memos_registry_size demo_resolve demo_uuid demo_widget 3
           demo_catalog _ st' memo_data E).
Defined.

Lemma main_blank_page_witness :
  match
    main demo_parse demo_read demo_rglob demo_resolve demo_uuid
      (fun _ => true) (Path_of_str (py "/elsewhere")) (fun _ => []) 3
      (py ".") (py "tests, tmp") (mkKeyState ∅ 0)
  with
  | Export report _ => report = []
  | Raised e => e <> PathError
  | MissingProject | OutOfFuel => True
  end.
Proof.
  apply (main_blank_page demo_resolve demo_uuid (fun _ => []) 3 demo_parse
           demo_read demo_rglob (fun _ => true)
           (Path_of_str (py "/elsewhere")) (py ".") (py "tests, tmp")
           (mkKeyState ∅ 0)).
  intros ui_key. reflexivity.
Defined.
